(** * StellarService: the blockchain registration bridge

    A shallow embedding of [StellarService] (the NestJS provider that mirrors
    an asset of the registry onto a Soroban contract) and the properties of
    its flow: enablement, identifier derivation, payload construction,
    simulate / submit / poll.

    Conventions.
    - A JavaScript [number] is an IEEE binary64 value: Rocq's primitive
      [float], with the kernel's multiplication.  Decimal literals denote the
      nearest double, as they do in JavaScript.
    - A [bigint] is a [Z].
    - A value that may be [undefined] or [null] is an [option].
    - A thrown exception (or rejected promise) is the [inl] of a sum. *)

From Stdlib Require Import ZArith QArith Qround Lia List Ascii String DecimalString.
From Stdlib Require Import PrimFloat FloatOps SpecFloat.
From stdpp Require Import base option list strings gmap pretty.

Local Open Scope Z_scope.

(* Decimal literals stand for the nearest double. *)
#[local] Set Warnings "-inexact-float".

(** ** JavaScript exceptions *)

Inductive js_error : Type :=
  | Error (message : string)       (* [throw new Error(message)] *)
  | TypeError (message : string)   (* raised by the runtime *)
  | RangeError (message : string). (* raised by the runtime *)

Definition result (A : Type) : Type := js_error + A.

(** ** Numbers: [Math.round], [BigInt], truthiness *)

Module Js.

(** The outcome of [Math.round]: an integral Number, written as the
    integer it denotes (the sign of a zero is dropped: [BigInt] does not
    see it), or one of the three non-finite Numbers. *)
Inductive integral : Type :=
  | Int (z : Z)
  | NaN
  | Infinity (negative : bool).

Definition signed (negative : bool) (m : positive) : Z :=
  if negative then Z.neg m else Z.pos m.

(** [n * 2^e] rounded to the nearest integer, a tie going towards
    positive infinity. *)
Definition round_dyadic (n e : Z) : Z :=
  if 0 <=? e then n * 2 ^ e
  else (2 * n + 2 ^ (- e)) / 2 ^ (- e + 1).


(** [Math.round(x)] *)
Definition Math_round (x : float) : integral :=
  match Prim2SF x with
  | S754_zero _ => Int 0
  | S754_infinity s => Infinity s
  | S754_nan => NaN
  | S754_finite s m e => Int (round_dyadic (signed s m) e)
  end.


(** [BigInt(n)] on the outcome of [Math.round]: a non-finite Number is
    not an integer and is refused with a RangeError. *)
Definition BigInt (n : integral) : result Z :=
  match n with
  | Int z => inr z
  | NaN =>
      inl (RangeError "The number NaN cannot be converted to a BigInt because it is not an integer")
  | Infinity false =>
      inl (RangeError "The number Infinity cannot be converted to a BigInt because it is not an integer")
  | Infinity true =>
      inl (RangeError "The number -Infinity cannot be converted to a BigInt because it is not an integer")
  end.

(** A Number in a condition: [NaN], [0] and [-0] are falsy. *)
Definition truthy (x : float) : bool :=
  match Prim2SF x with
  | S754_zero _ | S754_nan => false
  | _ => true
  end.

(** The real number a double stands for, when it is finite. *)
Definition exact (x : float) : option Q :=
  match Prim2SF x with
  | S754_zero _ => Some 0%Q
  | S754_finite s m e =>
      Some (if 0 <=? e then inject_Z (signed s m * 2 ^ e)
            else Qmake (signed s m) (Z.to_pos (2 ^ (- e))))
  | _ => None
  end.

(** Rounding half up, on the reals: the largest integer not above
    [q + 1/2]. *)
Definition round_half_up (q : Q) : Z := Qfloor (q + (1 # 2))%Q.

(** [BigInt.asIntN(bits, v)]: [v] modulo [2^bits], read as a signed
    integer of [bits] bits. *)
Definition asIntN (bits v : Z) : Z :=
  let m := v mod 2 ^ bits in
  if m <? 2 ^ (bits - 1) then m else m - 2 ^ bits.

End Js.

(** ** SHA-256 (FIPS 180-4), the digest behind [crypto.createHash('sha256')]

    Words are 32-bit unsigned integers held in [Z]; every addition wraps
    modulo [2^32].  Bytes are integers in [0, 256). *)

Module Sha256.

Definition wrap32 (x : Z) : Z := x mod 2 ^ 32.
Definition add32 (x y : Z) : Z := wrap32 (x + y).

Definition rotr (n x : Z) : Z :=
  Z.lor (Z.shiftr x n) (wrap32 (Z.shiftl x (32 - n))).

Definition Ch (x y z : Z) : Z :=
  Z.lxor (Z.land x y) (Z.land (wrap32 (Z.lnot x)) z).
Definition Maj (x y z : Z) : Z :=
  Z.lxor (Z.lxor (Z.land x y) (Z.land x z)) (Z.land y z).
Definition Sum0 (x : Z) : Z := Z.lxor (Z.lxor (rotr 2 x) (rotr 13 x)) (rotr 22 x).
Definition Sum1 (x : Z) : Z := Z.lxor (Z.lxor (rotr 6 x) (rotr 11 x)) (rotr 25 x).
Definition sig0 (x : Z) : Z := Z.lxor (Z.lxor (rotr 7 x) (rotr 18 x)) (Z.shiftr x 3).
Definition sig1 (x : Z) : Z := Z.lxor (Z.lxor (rotr 17 x) (rotr 19 x)) (Z.shiftr x 10).

(** The constants are the leading 32 fraction bits of the square roots
    (initial hash value) and of the cube roots (round constants) of the
    first primes. *)
Definition is_prime (n : nat) : bool :=
  forallb (fun d => negb (Nat.eqb (Nat.modulo n d) 0)) (seq 2 (n - 2)).

Definition primes_below (bound : nat) : list Z :=
  map Z.of_nat (List.filter is_prime (seq 2 (bound - 2))).

(** Integer cube root, one result bit at a time from bit [bits - 1]. *)
Fixpoint cube_root_bits (bits : nat) (n r : Z) : Z :=
  match bits with
  | O => r
  | S b =>
      let r' := r + 2 ^ Z.of_nat b in
      cube_root_bits b n (if r' * r' * r' <=? n then r' else r)
  end.

Definition cube_root (n : Z) : Z := cube_root_bits 40 n 0.

Definition K : list Z :=
  Eval vm_compute in
    map (fun p => wrap32 (cube_root (p * 2 ^ 96))) (primes_below 312).

Record state : Type := State {
  ha : Z; hb : Z; hc : Z; hd : Z; he : Z; hf : Z; hg : Z; hh : Z
}.

Definition H0 : state :=
  Eval vm_compute in
    let h p := wrap32 (Z.sqrt (p * 2 ^ 64)) in
    State (h 2) (h 3) (h 5) (h 7) (h 11) (h 13) (h 17) (h 19).

(** Padding: a [0x80] byte, zero bytes up to 56 modulo 64, then the bit
    length of the message as a 64-bit big-endian integer. *)
Definition be_bytes (count : nat) (x : Z) : list Z :=
  map (fun i => Z.land (Z.shiftr x (8 * Z.of_nat i)) 255) (rev (seq 0 count)).

Definition pad (msg : list Z) : list Z :=
  let len := Z.of_nat (length msg) in
  msg ++ [128] ++ repeat 0 (Z.to_nat ((55 - len) mod 64)) ++ be_bytes 8 (8 * len).

Fixpoint blocks (count : nat) (bytes : list Z) : list (list Z) :=
  match count with
  | O => []
  | S n => take 64 bytes :: blocks n (drop 64 bytes)
  end.

Definition be_word (bytes : list Z) : Z :=
  fold_left (fun acc b => acc * 256 + b) bytes 0.

Fixpoint words (count : nat) (bytes : list Z) : list Z :=
  match count with
  | O => []
  | S n => be_word (take 4 bytes) :: words n (drop 4 bytes)
  end.

(** The message schedule: 16 words of the block, then 48 derived ones. *)
Fixpoint extend (count : nat) (w : list Z) : list Z :=
  match count with
  | O => w
  | S n =>
      let t := length w in
      let at_ (back : nat) := nth (t - back) w 0 in
      extend n (w ++ [add32 (add32 (sig1 (at_ 2%nat)) (at_ 7%nat))
                            (add32 (sig0 (at_ 15%nat)) (at_ 16%nat))])
  end.

Definition schedule (block : list Z) : list Z := extend 48 (words 16 block).

Definition round (s : state) (kw : Z * Z) : state :=
  let t1 := add32 (add32 (add32 (hh s) (Sum1 (he s))) (Ch (he s) (hf s) (hg s)))
                  (add32 (fst kw) (snd kw)) in
  let t2 := add32 (Sum0 (ha s)) (Maj (ha s) (hb s) (hc s)) in
  State (add32 t1 t2) (ha s) (hb s) (hc s) (add32 (hd s) t1) (he s) (hf s) (hg s).

Definition compress (h : state) (block : list Z) : state :=
  let s := fold_left round (combine K (schedule block)) h in
  State (add32 (ha h) (ha s)) (add32 (hb h) (hb s)) (add32 (hc h) (hc s))
        (add32 (hd h) (hd s)) (add32 (he h) (he s)) (add32 (hf h) (hf s))
        (add32 (hg h) (hg s)) (add32 (hh h) (hh s)).

Definition output (s : state) : list Z :=
  be_bytes 4 (ha s) ++ be_bytes 4 (hb s) ++ be_bytes 4 (hc s) ++ be_bytes 4 (hd s) ++
  be_bytes 4 (he s) ++ be_bytes 4 (hf s) ++ be_bytes 4 (hg s) ++ be_bytes 4 (hh s).

Definition digest (msg : list Z) : list Z :=
  let padded := pad msg in
  output (fold_left compress (blocks (Nat.div (length padded) 64) padded) H0).

End Sha256.

(** ** Buffers and strings *)

(** The bytes [hash.update(s)] feeds to the digest: the UTF-8 encoding of
    the string, which is what a Rocq [string] holds. *)
Definition utf8_bytes (s : string) : list Z :=
  map (fun c => Z.of_N (Ascii.N_of_ascii c)) (String.list_ascii_of_string s).

Definition hex_digit (d : Z) : Ascii.ascii :=
  nth (Z.to_nat d) (String.list_ascii_of_string "0123456789abcdef") "0"%char.

(** [buffer.toString('hex')] *)
Fixpoint to_hex (bytes : list Z) : string :=
  match bytes with
  | [] => ""
  | b :: rest => String (hex_digit (b / 16)) (String (hex_digit (b mod 16)) (to_hex rest))
  end.

Definition is_byte (b : Z) : Prop := 0 <= b < 256.

(** ** Soroban values and the registry's records *)

(** The XDR values the service builds ([xdr.ScVal]). *)
#[local] Unset Elimination Schemes.
Inductive ScVal : Type :=
  | scvSymbol (s : string)
  | scvString (s : string)
  | scvBytes (bytes : list Z)
  | scvU64 (n : Z)
  | scvI128 (n : Z)
  | scvAddress (strkey : string)
  | scvVec (items : list ScVal)
  | scvMap (entries : list (ScVal * ScVal)).
#[local] Set Elimination Schemes.

(** [new xdr.ScMapEntry({ key, val })] *)
Definition ScMapEntry (key val : ScVal) : ScVal * ScVal := (key, val).

(** [nativeToScVal(v, { type })] at the three types the service asks for.
    The encoder of [i128] holds the [bigint] to 128 bits: a value outside
    [-2^127, 2^127) wraps around modulo [2^128]. *)
Definition nativeToScVal_string (v : string) : ScVal := scvString v.
Definition nativeToScVal_u64 (v : Z) : ScVal := scvU64 v.
Definition nativeToScVal_i128 (v : Z) : ScVal := scvI128 (Js.asIntN 128 v).

(** The value stored under a symbol key of a map. *)
Fixpoint field (key : string) (entries : list (ScVal * ScVal)) : option ScVal :=
  match entries with
  | [] => None
  | (scvSymbol k, v) :: rest => if String.eqb k key then Some v else field key rest
  | _ :: rest => field key rest
  end.

(** [AssetStatus] of [../assets/enums], which is not part of these sources:
    the four members are those of the frontend's copy of the enumeration
    ([status-badge.tsx], the status filter of the assets page). *)
Inductive AssetStatus : Type := ACTIVE | ASSIGNED | MAINTENANCE | RETIRED.

Module Category.
Record t : Type := { name : option string }.
End Category.

(** The fields of the [Asset] entity that [registerAsset] reads.
    [purchasePrice] is the Number that [Number(asset.purchasePrice)]
    yields. *)
Module Asset.
Record t : Type := {
  id : string;
  name : string;
  description : option string;
  category : option Category.t;
  status : AssetStatus;
  purchasePrice : option float
}.
End Asset.

(** ** The Stellar SDK and the network *)

(** What the service takes from [@stellar/stellar-sdk] without looking
    inside: key pairs, RPC handles, contracts, and the payloads of the
    network's answers. *)
Class StellarSdk : Type := {
  Keypair : Type;
  Keypair_fromSecret : string -> result Keypair;
  Keypair_publicKey : Keypair -> string;
  Server : Type;
  Server_new : string -> result Server;
  Contract : Type;
  Contract_new : option string -> result Contract;
  Account : Type;
  SimulationData : Type;
  ErrorResult : Type;
  JSON_stringify : ErrorResult -> string;
  (* the fee [rpc.assembleTransaction] sets: the fee of the transaction
     raised by the resource fee of its simulation *)
  assembled_fee : string -> SimulationData -> string
}.

Definition Networks_TESTNET : string := "Test SDF Network ; September 2015".
Definition BASE_FEE : string := "100".

Section Bridge.

Context `{sdk : StellarSdk}.

Inductive Operation : Type :=
  | invokeContract (contract : Contract) (method : string) (args : list ScVal).

Record Transaction : Type := {
  tx_source : Account;
  tx_fee : string;
  tx_networkPassphrase : option string;
  tx_operations : list Operation;
  tx_timeout : Z;
  tx_sorobanData : option SimulationData;
  tx_signatures : list Keypair
}.

(** [rpc.Api.SimulateTransactionResponse]: [isSimulationError] holds of
    the responses that carry an [error], the first constructor. *)
Inductive SimulateTransactionResponse : Type :=
  | SimulationError (error : string)
  | SimulationSuccess (data : SimulationData).

Record SendTransactionResponse : Type := {
  send_status : string;
  send_hash : string;
  send_errorResult : option ErrorResult
}.

(** Everything outside the process: the configuration, the clock and the
    answers of the RPC endpoint.  [getTransaction] answers the status of
    the [n]-th status query of a registration. *)
Record World : Type := {
  config : gmap string string;
  Date_now : Z;
  getAccount : Server -> string -> result Account;
  simulateTransaction : Server -> Transaction -> result SimulateTransactionResponse;
  sendTransaction : Server -> Transaction -> result SendTransactionResponse;
  getTransaction : Server -> nat -> string -> result string
}.

Inductive log_level : Type := LOG | ERROR | DEBUG.

(** What the process does that can be observed from outside. *)
Inductive event : Type :=
  | ev_log (level : log_level) (message : string)
  | ev_getAccount (publicKey : string)
  | ev_simulateTransaction (tx : Transaction)
  | ev_sendTransaction (tx : Transaction)
  | ev_sleep (ms : Z)
  | ev_getTransaction (hash : string).

(** The fields of the service object. *)
Record Service : Type := {
  enabled : bool;
  keypair : option Keypair;
  server : option Server;
  contractId : option string;
  networkPassphrase : option string
}.

(** The object as the constructor leaves it. *)
Definition new_StellarService : Service :=
  {| enabled := false; keypair := None; server := None;
     contractId := None; networkPassphrase := None |}.

(** *** The monad of methods

    A method reads the world, reads and writes the fields of [this],
    emits events, and returns or throws.  The fields written before a
    throw stay written. *)
Definition M (A : Type) : Type := World -> Service -> result A * Service * list event.

Definition ret {A} (a : A) : M A := fun _ this => (inr a, this, []).
Definition throw {A} (e : js_error) : M A := fun _ this => (inl e, this, []).
Definition bind {A B} (m : M A) (f : A -> M B) : M B :=
  fun w this =>
    match m w this with
    | (inl e, this', t) => (inl e, this', t)
    | (inr a, this', t) =>
        let '(r, this'', t') := f a w this' in (r, this'', t ++ t')
    end.
Definition lift {A} (r : result A) : M A := fun _ this => (r, this, []).
Definition world : M World := fun w this => (inr w, this, []).
Definition get_this : M Service := fun _ this => (inr this, this, []).
Definition set_this (f : Service -> Service) : M unit := fun _ this => (inr tt, f this, []).
Definition emit (e : event) : M unit := fun _ this => (inr tt, this, [e]).

#[global] Instance M_ret : MRet M := @ret.
#[global] Instance M_bind : MBind M := fun A B f m => bind m f.

End Bridge.

(** ** StellarService *)

Section StellarService.

Context `{sdk : StellarSdk}.

(** Assignments to the fields of [this]. *)
Definition with_enabled (b : bool) (s : Service) : Service :=
  {| enabled := b; keypair := keypair s; server := server s;
     contractId := contractId s; networkPassphrase := networkPassphrase s |}.
Definition with_keypair (k : Keypair) (s : Service) : Service :=
  {| enabled := enabled s; keypair := Some k; server := server s;
     contractId := contractId s; networkPassphrase := networkPassphrase s |}.
Definition with_server (r : Server) (s : Service) : Service :=
  {| enabled := enabled s; keypair := keypair s; server := Some r;
     contractId := contractId s; networkPassphrase := networkPassphrase s |}.
Definition with_contractId (c : option string) (s : Service) : Service :=
  {| enabled := enabled s; keypair := keypair s; server := server s;
     contractId := c; networkPassphrase := networkPassphrase s |}.
Definition with_networkPassphrase (p : string) (s : Service) : Service :=
  {| enabled := enabled s; keypair := keypair s; server := server s;
     contractId := contractId s; networkPassphrase := Some p |}.

(** [configService.get(key)] and [configService.get(key, fallback)] *)
Definition configService_get (key : string) : M (option string) :=
  w ← world; mret (config w !! key).
Definition configService_get_or (key fallback : string) : M string :=
  w ← world; mret (default fallback (config w !! key)).

Definition logger_log (message : string) : M unit := emit (ev_log LOG message).
Definition logger_error (message : string) : M unit := emit (ev_log ERROR message).
Definition logger_debug (message : string) : M unit := emit (ev_log DEBUG message).

(** A string in a condition: [undefined] and the empty string are
    falsy.  The result is the string when it is truthy. *)
Definition truthy_string (s : option string) : option string :=
  match s with
  | Some "" | None => None
  | Some v => Some v
  end.

(** [o.prop] where [o] may be [undefined]. *)
Definition member {A} (o : option A) (prop : string) : M A :=
  match o with
  | Some v => mret v
  | None =>
      throw (TypeError ("Cannot read properties of undefined (reading '" +:+ prop +:+ "')"))
  end.

Definition onModuleInit : M unit :=
  flag ← configService_get "STELLAR_ENABLED";
  set_this (with_enabled (bool_decide (flag = Some "true")));;
  this ← get_this;
  if negb (enabled this) then
    logger_log "Stellar integration is disabled (STELLAR_ENABLED != true)"
  else
    secretKey ← configService_get "STELLAR_SECRET_KEY";
    rpcUrl ← configService_get_or "STELLAR_RPC_URL" "https://soroban-testnet.stellar.org";
    cid ← configService_get "STELLAR_CONTRACT_ID";
    set_this (with_contractId cid);;
    passphrase ← configService_get_or "STELLAR_NETWORK_PASSPHRASE" Networks_TESTNET;
    set_this (with_networkPassphrase passphrase);;
    this ← get_this;
    match truthy_string secretKey, truthy_string (contractId this) with
    | Some key, Some _ =>
        kp ← lift (Keypair_fromSecret key);
        set_this (with_keypair kp);;
        srv ← lift (Server_new rpcUrl);
        set_this (with_server srv);;
        logger_log ("Stellar integration enabled. Public key: " +:+ Keypair_publicKey kp)
    | _, _ =>
        logger_error "STELLAR_SECRET_KEY and STELLAR_CONTRACT_ID must be set when STELLAR_ENABLED=true";;
        set_this (with_enabled false)
    end.

Definition isEnabled (this : Service) : bool := enabled this.

Record AssetId : Type := { buffer : list Z; hex : string }.

Definition deriveAssetId (uuid : string) : AssetId :=
  let buffer := Sha256.digest (utf8_bytes uuid) in
  {| buffer := buffer; hex := to_hex buffer |}.

Definition mapStatus (status : AssetStatus) : string :=
  match status with
  | RETIRED => "Retired"
  | _ => "Active"
  end.

(** Line 79: [asset.purchasePrice ? Math.round(Number(asset.purchasePrice) * 100) : 0] *)
Definition purchasePrice_cents (asset : Asset.t) : Js.integral :=
  match Asset.purchasePrice asset with
  | Some price =>
      if Js.truthy price then Js.Math_round (price * 100)%float else Js.Int 0
  | None => Js.Int 0
  end.

(** Lines 82-127: the record handed to the contract.  The entries are
    evaluated in order, so an unset key pair is met (at [owner]) before
    the price is converted (at [purchase_value]). *)
Definition assetScVal (asset : Asset.t) (now : Z) : M ScVal :=
  let assetIdBuffer := buffer (deriveAssetId (Asset.id asset)) in
  let sorobanStatus := mapStatus (Asset.status asset) in
  let purchasePrice := purchasePrice_cents asset in
  this ← get_this;
  kp ← member (keypair this) "publicKey";
  purchase_value ← lift (Js.BigInt purchasePrice);
  mret (scvMap [
    ScMapEntry (scvSymbol "category")
      (nativeToScVal_string (default "" (Asset.category asset ≫= Category.name)));
    ScMapEntry (scvSymbol "custom_attributes") (scvVec []);
    ScMapEntry (scvSymbol "description")
      (nativeToScVal_string (default "" (Asset.description asset)));
    ScMapEntry (scvSymbol "id") (scvBytes assetIdBuffer);
    ScMapEntry (scvSymbol "last_transfer_timestamp") (nativeToScVal_u64 0);
    ScMapEntry (scvSymbol "metadata_uri") (nativeToScVal_string "");
    ScMapEntry (scvSymbol "name") (nativeToScVal_string (Asset.name asset));
    ScMapEntry (scvSymbol "owner") (scvAddress (Keypair_publicKey kp));
    ScMapEntry (scvSymbol "purchase_value") (nativeToScVal_i128 purchase_value);
    ScMapEntry (scvSymbol "registration_timestamp") (nativeToScVal_u64 now);
    ScMapEntry (scvSymbol "status") (scvVec [scvSymbol sorobanStatus])
  ]).

Definition MAX_ATTEMPTS : nat := 20.
Definition INTERVAL_MS : Z := 3000.

Definition sleep (ms : Z) : M unit := emit (ev_sleep ms).

(** The loop of [pollForConfirmation], entered with [attempt] and
    [remaining] iterations to go ([MAX_ATTEMPTS - attempt + 1]). *)
Fixpoint poll_loop (remaining attempt : nat) (txHash : string) : M string :=
  match remaining with
  | O =>
      throw (Error ("Transaction not confirmed after " +:+ pretty MAX_ATTEMPTS
                    +:+ " attempts: " +:+ txHash))
  | S remaining' =>
      sleep INTERVAL_MS;;
      this ← get_this;
      srv ← member (server this) "getTransaction";
      w ← world;
      emit (ev_getTransaction txHash);;
      result_status ← lift (getTransaction w srv attempt txHash);
      if bool_decide (result_status = "SUCCESS") then
        logger_log ("Transaction confirmed: " +:+ txHash);;
        mret txHash
      else if bool_decide (result_status = "FAILED") then
        throw (Error ("Transaction failed on-chain: " +:+ txHash))
      else
        logger_debug ("Poll attempt " +:+ pretty attempt +:+ "/" +:+ pretty MAX_ATTEMPTS
                      +:+ ": status=" +:+ result_status);;
        poll_loop remaining' (S attempt) txHash
  end.

Definition pollForConfirmation (txHash : string) : M string :=
  poll_loop MAX_ATTEMPTS 1 txHash.

(** [JSON.stringify(x)] inside a template: [undefined] prints as such. *)
Definition stringify (x : option ErrorResult) : string :=
  match x with
  | Some payload => JSON_stringify payload
  | None => "undefined"
  end.

(** The transaction of lines 134-140, then what [assembleTransaction]
    (the footprint of the simulation, and its resource fee on top of the
    fee) and [sign] (one signature) add to it.  An operation is its
    contract, method and arguments: the authorisation entries that a
    simulation returns for it are not part of this model. *)
Definition build_transaction (account : Account) (passphrase : option string)
    (contract : Contract) (arg : ScVal) : Transaction :=
  {| tx_source := account; tx_fee := BASE_FEE; tx_networkPassphrase := passphrase;
     tx_operations := [invokeContract contract "register_asset" [arg]];
     tx_timeout := 300; tx_sorobanData := None; tx_signatures := [] |}.

Definition assembleTransaction (tx : Transaction) (data : SimulationData) : Transaction :=
  {| tx_source := tx_source tx; tx_fee := assembled_fee (tx_fee tx) data;
     tx_networkPassphrase := tx_networkPassphrase tx;
     tx_operations := tx_operations tx; tx_timeout := tx_timeout tx;
     tx_sorobanData := Some data; tx_signatures := tx_signatures tx |}.

Definition sign (tx : Transaction) (kp : Keypair) : Transaction :=
  {| tx_source := tx_source tx; tx_fee := tx_fee tx;
     tx_networkPassphrase := tx_networkPassphrase tx;
     tx_operations := tx_operations tx; tx_timeout := tx_timeout tx;
     tx_sorobanData := tx_sorobanData tx; tx_signatures := tx_signatures tx ++ [kp] |}.

Definition registerAsset (asset : Asset.t) : M string :=
  w ← world;
  let now := Date_now w / 1000 in
  payload ← assetScVal asset now;
  this ← get_this;
  srv ← member (server this) "getAccount";
  kp ← member (keypair this) "publicKey";
  emit (ev_getAccount (Keypair_publicKey kp));;
  account ← lift (getAccount w srv (Keypair_publicKey kp));
  contract ← lift (Contract_new (contractId this));
  let tx := build_transaction account (networkPassphrase this) contract payload in
  emit (ev_simulateTransaction tx);;
  simResult ← lift (simulateTransaction w srv tx);
  match simResult with
  | SimulationError error => throw (Error ("Simulation failed: " +:+ error))
  | SimulationSuccess data =>
      let assembled := sign (assembleTransaction tx data) kp in
      emit (ev_sendTransaction assembled);;
      sendResult ← lift (sendTransaction w srv assembled);
      if bool_decide (send_status sendResult = "ERROR") then
        throw (Error ("Transaction submission failed: "
                      +:+ stringify (send_errorResult sendResult)))
      else
        let txHash := send_hash sendResult in
        logger_log ("Transaction submitted: " +:+ txHash +:+ ", polling for confirmation...");;
        pollForConfirmation txHash
  end.

End StellarService.

(** ** A small instance

    A stand-in for the SDK and the network with which the definitions
    above can be run: key pairs and handles are the strings they were made
    from, the network answers what it is told to. *)

Module Demo.

(** [parseInt(fee) || 0] on a decimal numeral. *)
Definition parse_fee (fee : string) : N :=
  match DecimalString.NilEmpty.uint_of_string fee with
  | Some digits => N.of_uint digits
  | None => 0%N
  end.

(** Every simulation of the stand-in asks for a resource fee of 500. *)
Definition sdk : StellarSdk := {|
  Keypair := string;
  Keypair_fromSecret secret :=
    if String.prefix "S" secret then inr secret else inl (Error "invalid encoded string");
  Keypair_publicKey kp := "G" +:+ kp;
  Server := string;
  Server_new url :=
    if String.prefix "https://" url then inr url
    else inl (Error "Cannot connect to insecure Soroban RPC server");
  Contract := string;
  Contract_new id :=
    match id with
    | Some c => inr c
    | None => inl (TypeError "Cannot read properties of undefined")
    end;
  Account := string;
  SimulationData := unit;
  ErrorResult := string;
  JSON_stringify payload := payload;
  assembled_fee fee _ :=
    DecimalString.NilEmpty.string_of_uint (N.to_uint (parse_fee fee + 500)%N)
|}.

#[local] Existing Instance sdk.

Definition net (cfg : gmap string string)
    (sim : result (@SimulateTransactionResponse sdk))
    (send : result (@SendTransactionResponse sdk))
    (statuses : nat -> string) : @World sdk :=
  {| config := cfg;
     Date_now := 1700000000123;
     getAccount _ pk := inr pk;
     simulateTransaction _ _ := sim;
     sendTransaction _ _ := send;
     getTransaction _ n _ := inr (statuses n) |}.

Definition asset (price : option float) : Asset.t :=
  {| Asset.id := "7c9e6679-7425-40de-944b-e07fc1f90ae7";
     Asset.name := "Laptop";
     Asset.description := None;
     Asset.category := Some {| Category.name := Some "Hardware" |};
     Asset.status := ASSIGNED;
     Asset.purchasePrice := price |}.

Definition full_config : gmap string string :=
  {[ "STELLAR_ENABLED" := "true";
     "STELLAR_SECRET_KEY" := "SKEY";
     "STELLAR_CONTRACT_ID" := "CONTRACT" ]}.

(** The service after a start with [full_config]. *)
Definition ready : @Service sdk :=
  {| enabled := true; keypair := Some "SKEY";
     server := Some "https://soroban-testnet.stellar.org";
     contractId := Some "CONTRACT";
     networkPassphrase := Some Networks_TESTNET |}.

Definition sent (status : string) (payload : option string) : @SendTransactionResponse sdk :=
  {| send_status := status; send_hash := "abc123"; send_errorResult := payload |}.

(** Status answers: NOT_FOUND before attempt [n], [status] from it on. *)
Definition pending_until (n : nat) (status : string) : nat -> string :=
  fun attempt => if (attempt <? n)%nat then "NOT_FOUND" else status.

(** A network on which the simulation succeeds, the submission is
    accepted and the third status query finds the transaction confirmed. *)
Definition healthy (cfg : gmap string string) : @World sdk :=
  net cfg (inr (SimulationSuccess tt)) (inr (sent "PENDING" None)) (pending_until 3 "SUCCESS").

(** The same with the full configuration and the given status answers. *)
Definition answering (statuses : nat -> string) : @World sdk :=
  net full_config (inr (SimulationSuccess tt)) (inr (sent "PENDING" None)) statuses.

(** A network that refuses the transaction at simulation. *)
Definition refusing : @World sdk :=
  net full_config (inr (SimulationError "HostError: contract trapped"))
    (inr (sent "PENDING" None)) (pending_until 3 "SUCCESS").

(** A network that rejects the transaction at submission. *)
Definition rejecting : @World sdk :=
  net full_config (inr (SimulationSuccess tt))
    (inr (sent "ERROR" (Some "txBadSeq"))) (pending_until 3 "SUCCESS").

(** A network whose third status query is rejected. *)
Definition flaky : @World sdk :=
  {| config := full_config;
     Date_now := 1700000000123;
     getAccount _ pk := inr pk;
     simulateTransaction _ _ := inr (SimulationSuccess tt);
     sendTransaction _ _ := inr (sent "PENDING" None);
     getTransaction _ n _ :=
       if (n <? 3)%nat then inr "NOT_FOUND" else inl (Error "socket hang up") |}.

(** A network that does not know the account of the service. *)
Definition unfunded : @World sdk :=
  {| config := full_config;
     Date_now := 1700000000123;
     getAccount _ _ := inl (Error "Account not found");
     simulateTransaction _ _ := inr (SimulationSuccess tt);
     sendTransaction _ _ := inr (sent "PENDING" None);
     getTransaction _ _ _ := inr "SUCCESS" |}.

(** A configuration whose secret key the SDK rejects. *)
Definition bad_key_config : gmap string string :=
  {[ "STELLAR_ENABLED" := "true";
     "STELLAR_SECRET_KEY" := "not-a-secret";
     "STELLAR_CONTRACT_ID" := "CONTRACT" ]}.

End Demo.

(** ** Observations on a run *)

Section Observations.

Context `{sdk : StellarSdk}.

Definition outcome {A} (run : result A * Service * list event) : result A := run.1.1.
Definition final {A} (run : result A * Service * list event) : Service := run.1.2.
Definition trace {A} (run : result A * Service * list event) : list event := run.2.

Definition is_submission (e : event) : bool :=
  match e with ev_sendTransaction _ => true | _ => false end.
Definition is_simulation (e : event) : bool :=
  match e with ev_simulateTransaction _ => true | _ => false end.
Definition is_poll (e : event) : bool :=
  match e with ev_getTransaction _ | ev_sleep _ => true | _ => false end.
Definition is_status_query (e : event) : bool :=
  match e with ev_getTransaction _ => true | _ => false end.

(** An entry of the record a run has built, if it has built one. *)
Definition payload_field (key : string) (run : result ScVal * Service * list event)
    : option ScVal :=
  match outcome run with
  | inr (scvMap entries) => field key entries
  | _ => None
  end.

Fixpoint count (p : event -> bool) (t : list event) : nat :=
  match t with
  | [] => 0
  | e :: rest => ((if p e then 1 else 0) + count p rest)%nat
  end.

(** A status that ends the polling. *)
Definition terminal (status : string) : Prop := status = "SUCCESS" \/ status = "FAILED".

(** The calls a client can make on the service once it is started. *)
Inductive call : Type :=
  | call_isEnabled
  | call_deriveAssetId (uuid : string)
  | call_registerAsset (asset : Asset.t) (w : World).

(** The object after a call, and after a sequence of calls. *)
Definition after_call (this : Service) (c : call) : Service :=
  match c with
  | call_isEnabled | call_deriveAssetId _ => this
  | call_registerAsset asset w => final (registerAsset asset w this)
  end.

Definition after_calls (calls : list call) (this : Service) : Service :=
  fold_left after_call calls this.

(** "No-ops or reports disabled": the call returns, or it throws an
    [Error] of the service's own. *)
Definition noop_or_reports_disabled (run : result string * Service * list event) : Prop :=
  (exists v, outcome run = inr v) \/ (exists message, outcome run = inl (Error message)).

(** The bridge is inert in world [w]: after the start [isEnabled] is
    false and [registerAsset] no-ops or reports disabled. *)
Definition bridge_inert (w : World) (asset : Asset.t) : Prop :=
  let this := final (onModuleInit w new_StellarService) in
  isEnabled this = false /\ noop_or_reports_disabled (registerAsset asset w this).

End Observations.

(** "Rounds half up at the cent boundary", read on the decimal price:
    the price as the rational its numeral denotes, times 100, rounded
    half up. *)
Definition decimal_half_up_cents (price : Q) : Z := Js.round_half_up (price * 100)%Q.


(** What the compression function is folded over when an identifier is
    hashed: the 64-byte blocks of the padded UTF-8 bytes of the
    identifier. *)
Definition hashed_blocks (uuid : string) : list (list Z) :=
  let padded := Sha256.pad (utf8_bytes uuid) in
  Sha256.blocks (Nat.div (length padded) 64) padded.

(** ** Further observations on a trace *)

Section Measures.

Context `{sdk : StellarSdk}.

Definition is_sleep (e : event) : bool :=
  match e with ev_sleep _ => true | _ => false end.
Definition is_account_query (e : event) : bool :=
  match e with ev_getAccount _ => true | _ => false end.
Definition is_log (e : event) : bool :=
  match e with ev_log _ _ => true | _ => false end.

(** A call on the RPC endpoint. *)
Definition is_rpc (e : event) : bool :=
  match e with
  | ev_getAccount _ | ev_simulateTransaction _ | ev_sendTransaction _
  | ev_getTransaction _ => true
  | ev_log _ _ | ev_sleep _ => false
  end.

(** The time spent sleeping, in milliseconds. *)
Fixpoint slept (t : list event) : Z :=
  match t with
  | [] => 0
  | ev_sleep ms :: rest => ms + slept rest
  | _ :: rest => slept rest
  end.

(** The state in which the start leaves the object once the settings are
    read: flag set, contract identifier and passphrase stored. *)
Definition settings_read (w : World) (this : Service) : Service :=
  with_networkPassphrase
    (default Networks_TESTNET (config w !! "STELLAR_NETWORK_PASSPHRASE"))
    (with_contractId (config w !! "STELLAR_CONTRACT_ID") (with_enabled true this)).

End Measures.

(** The value of a hexadecimal digit (0 for any other character). *)
Definition hex_value (c : Ascii.ascii) : Z :=
  let n := Z.of_N (Ascii.N_of_ascii c) in
  if (48 <=? n) && (n <=? 57) then n - 48
  else if (97 <=? n) && (n <=? 102) then n - 87
  else 0.

(** The lowercase hexadecimal digits. *)
Definition is_hex_digit (c : Ascii.ascii) : bool :=
  existsb (Ascii.eqb c) (String.list_ascii_of_string "0123456789abcdef").

(** The symbol of a map key, and the strict order of two adjacent keys. *)
Definition key_name (entry : ScVal * ScVal) : string :=
  match fst entry with scvSymbol k => k | _ => "" end.

Fixpoint ascending (names : list string) : bool :=
  match names with
  | a :: (b :: _) as rest => String.ltb a b && ascending rest
  | _ => true
  end.

(** ** The frontend: route middleware and the controls of the assets page *)

Module Middleware.

(** What the middleware reads of a request: its cookies, the origin of
    its URL and the path asked for. *)
Record NextRequest : Type := {
  cookies : gmap string string;
  origin : string;
  pathname : string
}.

Record URL : Type := {
  url_origin : string;
  url_pathname : string;
  searchParams : list (string * string)
}.

Inductive NextResponse : Type :=
  | redirect (url : URL)
  | next.

Definition PROTECTED : list string := ["/assets"; "/departments"; "/users"].
Definition AUTH_PAGES : list string := ["/login"; "/signup"; "/register"].

(** [pathname.startsWith(route)] *)
Definition startsWith (pathname route : string) : bool := String.prefix route pathname.

Definition middleware (req : NextRequest) : NextResponse :=
  let token := cookies req !! "auth-token" in
  let isProtected := existsb (startsWith (pathname req)) PROTECTED in
  if isProtected && negb (bool_decide (is_Some (truthy_string token))) then
    redirect {| url_origin := origin req; url_pathname := "/login";
                searchParams := [("redirect", pathname req)] |}
  else next.

(** The request a browser makes when it follows a redirect: same cookies,
    the path of the target. *)
Definition follow (req : NextRequest) (url : URL) : NextRequest :=
  {| cookies := cookies req; origin := url_origin url; pathname := url_pathname url |}.

End Middleware.

Module AssetsPage.

Inductive SortOrder : Type := asc | desc.

Inductive SortField : Type :=
  | assetId | name | category | status | condition | department | assignedTo.

#[global] Instance SortField_eq_dec : EqDecision SortField.
Proof. solve_decision. Defined.

(** The state of the page that its handlers touch. *)
Record State : Type := {
  currentPage : Z;
  sortField : SortField;
  sortOrder : SortOrder
}.

Definition handleSort (field : SortField) (s : State) : State :=
  if bool_decide (sortField s = field) then
    {| currentPage := currentPage s; sortField := sortField s;
       sortOrder := match sortOrder s with asc => desc | desc => asc end |}
  else
    {| currentPage := currentPage s; sortField := field; sortOrder := asc |}.

Definition handlePreviousPage (s : State) : State :=
  {| currentPage := Z.max 1 (currentPage s - 1);
     sortField := sortField s; sortOrder := sortOrder s |}.

(** [data?.totalPages || 1]: no data yet, or a count of zero, is one page. *)
Definition pages_or_one (totalPages : option Z) : Z :=
  match totalPages with
  | Some 0 | None => 1
  | Some n => n
  end.

Definition handleNextPage (totalPages : option Z) (s : State) : State :=
  {| currentPage := Z.min (pages_or_one totalPages) (currentPage s + 1);
     sortField := sortField s; sortOrder := sortOrder s |}.

End AssetsPage.

(** * Properties *)

(** ** Arithmetic of the price conversion *)

Module JsFacts.
Import Js.

Lemma pow2_pos (k : Z) : 0 <= k -> 0 < 2 ^ k.
Proof. intros; apply Z.pow_pos_nonneg; lia. Qed.

(** [Math.round] on a dyadic number is rounding half up on the reals. *)
Lemma round_dyadic_half_up (n e : Z) :
  e < 0 ->
  round_dyadic n e = round_half_up (Qmake n (Z.to_pos (2 ^ (- e)))).
Proof.
  intros He. unfold round_dyadic, round_half_up.
  destruct (Z.leb_spec 0 e) as [?|_]; [lia|].
  pose proof (pow2_pos (- e) ltac:(lia)) as Hp.
  unfold Qfloor, Qplus; cbn [Qnum Qden].
  rewrite Pos2Z.inj_mul, Z2Pos.id by exact Hp.
  replace (- e + 1) with (Z.succ (- e)) by lia.
  rewrite Z.pow_succ_r by lia.
  f_equal; lia.
Qed.

Lemma round_integer_half_up (z : Z) : z = round_half_up (inject_Z z).
Proof.
  unfold round_half_up, Qfloor, Qplus, inject_Z; cbn [Qnum Qden].
  replace (z * 2 + 1 * 1) with (1 + z * 2) by lia.
  rewrite Z.div_add by lia. reflexivity.
Qed.

Lemma Math_round_half_up (x : float) (q : Q) :
  exact x = Some q -> Math_round x = Int (round_half_up q).
Proof.
  unfold exact, Math_round.
  destruct (Prim2SF x) as [s| s | |s m e]; try discriminate.
  - intros [= <-]. reflexivity.
  - destruct (Z.leb_spec 0 e) as [He|He]; intros [= <-]; f_equal.
    + unfold round_dyadic. destruct (Z.leb_spec 0 e); [|lia].
      apply round_integer_half_up.
    + apply round_dyadic_half_up; lia.
Qed.

Lemma Math_round_not_finite (x : float) :
  exact x = None -> exists e, BigInt (Math_round x) = inl (RangeError e).
Proof.
  unfold exact, Math_round.
  destruct (Prim2SF x) as [s| [|] | |s m e]; try discriminate; intros _;
    cbn; eauto.
Qed.

(** A signed 128-bit integer is kept as it is. *)
Lemma asIntN_in_range (v : Z) : - 2 ^ 127 <= v < 2 ^ 127 -> asIntN 128 v = v.
Proof.
  intros Hv. unfold asIntN.
  change (128 - 1) with 127.
  assert (H128 : 2 ^ 128 = 2 * 2 ^ 127) by reflexivity.
  assert (Hpos : 0 < 2 ^ 127) by reflexivity.
  destruct (Z.ltb_spec v 0) as [Hneg|Hnonneg].
  - assert (Hmod : v mod 2 ^ 128 = v + 2 ^ 128).
    { symmetry. apply (Z.mod_unique_pos v (2 ^ 128) (-1)); lia. }
    cbv zeta. rewrite Hmod. destruct (Z.ltb_spec (v + 2 ^ 128) (2 ^ 127)); lia.
  - cbv zeta. rewrite Z.mod_small by lia. destruct (Z.ltb_spec v (2 ^ 127)); lia.
Qed.


End JsFacts.

(** ** The digest *)

Module Sha256Facts.
Import Sha256.

(** The constants are those of the standard. *)
Example K_ends : head K = Some 0x428a2f98 /\ last K = Some 0xc67178f2 /\ length K = 64%nat.
Proof. repeat split. Qed.

Example H0_standard :
  H0 = State 0x6a09e667 0xbb67ae85 0x3c6ef372 0xa54ff53a
             0x510e527f 0x9b05688c 0x1f83d9ab 0x5be0cd19.
Proof. reflexivity. Qed.

(** The test vectors of the standard: one block, the empty message, two
    blocks. *)
Example digest_abc :
  to_hex (digest (utf8_bytes "abc"))
  = "ba7816bf8f01cfea414140de5dae2223b00361a396177a9cb410ff61f20015ad".
Proof. vm_compute. reflexivity. Qed.

Example digest_empty :
  to_hex (digest (utf8_bytes ""))
  = "e3b0c44298fc1c149afbf4c8996fb92427ae41e4649b934ca495991b7852b855".
Proof. vm_compute. reflexivity. Qed.

Example digest_two_blocks :
  to_hex (digest (utf8_bytes "abcdbcdecdefdefgefghfghighijhijkijkljklmklmnlmnomnopnopq"))
  = "248d6a61d20638b8e5c026930c3e6039a33ce45964ff2167f6ecedd419db06c1".
Proof. vm_compute. reflexivity. Qed.

Lemma be_bytes_length (count : nat) (x : Z) : length (be_bytes count x) = count.
Proof. unfold be_bytes. rewrite length_map, length_rev, length_seq. reflexivity. Qed.

Lemma be_bytes_are_bytes (count : nat) (x : Z) : Forall is_byte (be_bytes count x).
Proof.
  unfold be_bytes. apply Forall_map, Forall_forall. intros i _.
  unfold is_byte. change 255 with (Z.ones 8).
  rewrite Z.land_ones by lia. apply Z.mod_pos_bound. lia.
Qed.

Lemma output_length (s : state) : length (output s) = 32%nat.
Proof. unfold output. rewrite !length_app, !be_bytes_length. reflexivity. Qed.

Lemma output_bytes (s : state) : Forall is_byte (output s).
Proof. unfold output. repeat apply Forall_app_2; apply be_bytes_are_bytes. Qed.

Lemma digest_length (msg : list Z) : length (digest msg) = 32%nat.
Proof. apply output_length. Qed.

Lemma digest_bytes (msg : list Z) : Forall is_byte (digest msg).
Proof. apply output_bytes. Qed.

Lemma to_hex_length (bytes : list Z) :
  String.length (to_hex bytes) = (2 * length bytes)%nat.
Proof. induction bytes as [|b rest IH]; cbn [to_hex String.length length]; lia. Qed.

(** The padded message is a whole number of blocks, the least that holds
    the message, the marker byte and the eight bytes of the length. *)
Lemma pad_length (msg : list Z) :
  exists n : nat,
    length (pad msg) = (64 * n)%nat /\
    (length msg + 9 <= 64 * n < length msg + 73)%nat.
Proof.
  unfold pad. rewrite !length_app, repeat_length, be_bytes_length. cbn [length].
  set (len := Z.of_nat (length msg)).
  pose proof (Z.mod_pos_bound (55 - len) 64 ltac:(lia)) as Hk.
  pose proof (Z.div_mod (55 - len) 64 ltac:(lia)) as Hdiv.
  exists (Z.to_nat (1 - (55 - len) / 64)).
  assert (0 <= 1 - (55 - len) / 64) by (subst len; lia).
  split; [|split]; subst len; lia.
Qed.

Lemma blocks_concat (n : nat) (bytes : list Z) :
  concat (blocks n bytes) = take (64 * n) bytes.
Proof.
  revert bytes. induction n as [|n IH]; intros bytes; [reflexivity|].
  cbn [blocks concat]. rewrite IH, take_take_drop. f_equal. lia.
Qed.

Lemma blocks_length (n : nat) (bytes : list Z) :
  length bytes = (64 * n)%nat ->
  Forall (fun block => length block = 64%nat) (blocks n bytes).
Proof.
  revert bytes. induction n as [|n IH]; intros bytes Hlen; [constructor|].
  cbn [blocks]. constructor.
  - rewrite length_take. lia.
  - apply IH. rewrite length_drop. lia.
Qed.

(** The last two bytes of the length field give the bit length modulo
    65536. *)
Lemma be_bytes_low (x y : Z) :
  be_bytes 8 x = be_bytes 8 y -> x mod 65536 = y mod 65536.
Proof.
  unfold be_bytes. cbn [seq rev app map].
  intros [= _ _ _ _ _ _ H1 H0].
  change (8 * Z.of_nat 1) with 8 in H1. change (8 * Z.of_nat 0) with 0 in H0.
  rewrite !Z.shiftr_0_r in H0.
  change 255 with (Z.ones 8) in H0, H1.
  rewrite !Z.land_ones in H0, H1 by lia.
  rewrite !Z.shiftr_div_pow2 in H1 by lia.
  change (2 ^ 8) with 256 in *.
  change 65536 with (256 * 256).
  rewrite !Z.rem_mul_r by lia. lia.
Qed.

(** Padding loses nothing: the padded bytes determine the message.  Two
    paddings of the same length differ in message length by less than 64
    bytes, and the length field tells such lengths apart. *)
Lemma pad_injective (msg1 msg2 : list Z) : pad msg1 = pad msg2 -> msg1 = msg2.
Proof.
  intros Heq.
  assert (Hlen : length msg1 = length msg2).
  { pose proof (f_equal (@length Z) Heq) as Htotal.
    assert (Hsuffix : forall msg, drop (length (pad msg) - 8) (pad msg)
                                  = be_bytes 8 (8 * Z.of_nat (length msg))).
    { intros msg. unfold pad.
      rewrite !app_assoc. apply drop_app_length'.
      rewrite !length_app, be_bytes_length. lia. }
    pose proof (Hsuffix msg1) as H1. pose proof (Hsuffix msg2) as H2.
    rewrite Heq in H1. rewrite H1 in H2. apply be_bytes_low in H2.
    destruct (pad_length msg1) as (n1 & Hn1 & Hr1).
    destruct (pad_length msg2) as (n2 & Hn2 & Hr2).
    assert (n1 = n2) as -> by lia.
    pose proof (Z.div_mod (8 * Z.of_nat (length msg1)) 65536 ltac:(lia)).
    pose proof (Z.div_mod (8 * Z.of_nat (length msg2)) 65536 ltac:(lia)).
    lia. }
  pose proof (f_equal (take (length msg1)) Heq) as Htake.
  unfold pad in Htake. rewrite take_app_length in Htake.
  rewrite Hlen, take_app_length in Htake. exact Htake.
Qed.

End Sha256Facts.

Lemma utf8_bytes_injective (s1 s2 : string) : utf8_bytes s1 = utf8_bytes s2 -> s1 = s2.
Proof.
  unfold utf8_bytes. intros Heq.
  rewrite <- (String.string_of_list_ascii_of_string s1),
          <- (String.string_of_list_ascii_of_string s2).
  f_equal. revert Heq.
  generalize (String.list_ascii_of_string s1) (String.list_ascii_of_string s2).
  induction l as [|c1 l1 IH]; intros [|c2 l2]; cbn; try discriminate; [reflexivity|].
  intros [= Hc Hl]. apply N2Z.inj in Hc.
  f_equal; [|exact (IH l2 Hl)].
  rewrite <- (Ascii.ascii_N_embedding c1), <- (Ascii.ascii_N_embedding c2), Hc. reflexivity.
Qed.

Lemma hashed_blocks_concat (uuid : string) :
  concat (hashed_blocks uuid) = Sha256.pad (utf8_bytes uuid).
Proof.
  unfold hashed_blocks. cbv zeta.
  destruct (Sha256Facts.pad_length (utf8_bytes uuid)) as (n & Hn & _).
  rewrite Sha256Facts.blocks_concat, Hn.
  replace (Nat.div (64 * n) 64) with n
    by (symmetry; rewrite Nat.mul_comm; apply Nat.div_mul; lia).
  apply take_ge. lia.
Qed.

Lemma hashed_blocks_whole (uuid : string) :
  Forall (fun block => length block = 64%nat) (hashed_blocks uuid).
Proof.
  unfold hashed_blocks. cbv zeta.
  destruct (Sha256Facts.pad_length (utf8_bytes uuid)) as (n & Hn & _).
  rewrite Hn.
  replace (Nat.div (64 * n) 64) with n
    by (symmetry; rewrite Nat.mul_comm; apply Nat.div_mul; lia).
  apply Sha256Facts.blocks_length, Hn.
Qed.

Lemma hashed_blocks_injective (uuid1 uuid2 : string) :
  hashed_blocks uuid1 = hashed_blocks uuid2 -> uuid1 = uuid2.
Proof.
  intros Heq. apply utf8_bytes_injective, Sha256Facts.pad_injective.
  rewrite <- !hashed_blocks_concat, Heq. reflexivity.
Qed.

(** C8. [deriveAssetId] is a total function of the identifier alone, with
    no failing outcome, and what it returns is the SHA-256 digest of the
    identifier.
    - Its buffer is the output of the compression function folded, from
      the initial hash value, over the blocks hashed for the identifier.
      These are whole 64-byte blocks; put end to end they are the UTF-8
      bytes of the identifier followed by the padding (the marker byte,
      the zero bytes and the 64-bit bit length); no two identifiers are
      hashed as the same blocks.
    - The buffer is 32 bytes long, each an integer below 256, and [hex]
      is the 64-digit hexadecimal print of that buffer.
    - Equal identifiers give equal results.
    - The results for the three test messages of the standard and for an
      identifier of the registry's format are the published SHA-256
      values, which differ from one another. *)
Theorem deriveAssetId_digest (uuid1 uuid2 : string) :
  buffer (deriveAssetId uuid1)
  = Sha256.output (fold_left Sha256.compress (hashed_blocks uuid1) Sha256.H0) /\
  Forall (fun block => length block = 64%nat) (hashed_blocks uuid1) /\
  concat (hashed_blocks uuid1)
  = utf8_bytes uuid1 ++ [128]
    ++ repeat 0 (Z.to_nat ((55 - Z.of_nat (length (utf8_bytes uuid1))) mod 64))
    ++ Sha256.be_bytes 8 (8 * Z.of_nat (length (utf8_bytes uuid1))) /\
  (hashed_blocks uuid1 = hashed_blocks uuid2 -> uuid1 = uuid2) /\
  length (buffer (deriveAssetId uuid1)) = 32%nat /\
  Forall is_byte (buffer (deriveAssetId uuid1)) /\
  hex (deriveAssetId uuid1) = to_hex (buffer (deriveAssetId uuid1)) /\
  String.length (hex (deriveAssetId uuid1)) = 64%nat /\
  (uuid1 = uuid2 -> deriveAssetId uuid1 = deriveAssetId uuid2) /\
  hex (deriveAssetId "abc")
  = "ba7816bf8f01cfea414140de5dae2223b00361a396177a9cb410ff61f20015ad" /\
  hex (deriveAssetId "")
  = "e3b0c44298fc1c149afbf4c8996fb92427ae41e4649b934ca495991b7852b855" /\
  hex (deriveAssetId "abcdbcdecdefdefgefghfghighijhijkijkljklmklmnlmnomnopnopq")
  = "248d6a61d20638b8e5c026930c3e6039a33ce45964ff2167f6ecedd419db06c1" /\
  hex (deriveAssetId "7c9e6679-7425-40de-944b-e07fc1f90ae7")
  = "6316e01c9e1d33dec091e5469b8fe3f63ae270f7471846f380d926c3454b4027".
Proof.
  split; [reflexivity|].
  split; [apply hashed_blocks_whole|].
  split; [apply hashed_blocks_concat|].
  split; [apply hashed_blocks_injective|].
  unfold deriveAssetId; cbn [buffer hex].
  split; [apply Sha256Facts.digest_length|].
  split; [apply Sha256Facts.digest_bytes|].
  split; [reflexivity|].
  split; [rewrite Sha256Facts.to_hex_length, Sha256Facts.digest_length; reflexivity|].
  split; [intros ->; reflexivity|].
  repeat split; vm_compute; reflexivity.
Qed.

(** The identifier of the registry's format is hashed as one block: its
    36 bytes, the marker, 19 zero bytes and the bit length 288.  An
    identifier that differs in its last digit is hashed as another
    block. *)
Lemma deriveAssetId_digest_witness :
  let uuid := "7c9e6679-7425-40de-944b-e07fc1f90ae7" in
  let other := "7c9e6679-7425-40de-944b-e07fc1f90ae8" in
  hashed_blocks uuid
  = [utf8_bytes uuid ++ [128] ++ repeat 0 19%nat ++ [0; 0; 0; 0; 0; 0; 1; 32]] /\
  hashed_blocks uuid <> hashed_blocks other /\
  length (buffer (deriveAssetId uuid)) = 32%nat /\
  hex (deriveAssetId uuid)
  = "6316e01c9e1d33dec091e5469b8fe3f63ae270f7471846f380d926c3454b4027".
Proof.
  intros uuid other.
  pose proof (deriveAssetId_digest uuid other)
    as (_ & _ & _ & Hinj & Hlen & _ & _ & _ & _ & _ & _ & _ & Hhex).
  split; [vm_compute; reflexivity|].
  split; [intros Heq; apply Hinj in Heq; discriminate Heq|].
  split; [exact Hlen | exact Hhex].
Defined.

(** C5. The status mapping is total and has two cases: [RETIRED] gives
    "Retired", each other member of the enumeration gives "Active". *)
Theorem mapStatus_closed :
  mapStatus RETIRED = "Retired" /\
  forall status : AssetStatus, status <> RETIRED -> mapStatus status = "Active".
Proof.
  split; [reflexivity|].
  intros [] Hne; try reflexivity. contradiction.
Qed.

Lemma mapStatus_closed_witness :
  MAINTENANCE <> RETIRED /\ mapStatus MAINTENANCE = "Active".
Proof.
  split; [discriminate | apply (proj2 mapStatus_closed); discriminate].
Defined.

(** ** The record handed to the contract *)

Section Payload.

Context `{sdk : StellarSdk}.

(** With a key pair and a finite price the record is built, without
    touching the object or the network; its eleven entries follow. *)
Lemma assetScVal_built (asset : Asset.t) (now : Z) (w : World) (this : Service)
    (kp : Keypair) (cents : Z) :
  keypair this = Some kp ->
  purchasePrice_cents asset = Js.Int cents ->
  exists entries,
    assetScVal asset now w this = (inr (scvMap entries), this, []) /\
    map fst entries = map scvSymbol
      ["category"; "custom_attributes"; "description"; "id";
       "last_transfer_timestamp"; "metadata_uri"; "name"; "owner";
       "purchase_value"; "registration_timestamp"; "status"] /\
    field "category" entries
      = Some (scvString (default "" (Asset.category asset ≫= Category.name))) /\
    field "custom_attributes" entries = Some (scvVec []) /\
    field "description" entries = Some (scvString (default "" (Asset.description asset))) /\
    field "id" entries = Some (scvBytes (buffer (deriveAssetId (Asset.id asset)))) /\
    field "last_transfer_timestamp" entries = Some (scvU64 0) /\
    field "metadata_uri" entries = Some (scvString "") /\
    field "name" entries = Some (scvString (Asset.name asset)) /\
    field "owner" entries = Some (scvAddress (Keypair_publicKey kp)) /\
    field "purchase_value" entries = Some (scvI128 (Js.asIntN 128 cents)) /\
    field "registration_timestamp" entries = Some (scvU64 now) /\
    field "status" entries = Some (scvVec [scvSymbol (mapStatus (Asset.status asset))]).
Proof.
  intros Hkp Hcents. eexists.
  unfold assetScVal. rewrite Hcents.
  destruct this as [en k srv cid np]; cbn in Hkp; subst k.
  cbn -[deriveAssetId mapStatus].
  split; [reflexivity|]. repeat split.
Qed.

Lemma payload_field_built (key : string) (run : result ScVal * Service * list event)
    (entries : list (ScVal * ScVal)) (this : Service) (t : list event) :
  run = (inr (scvMap entries), this, t) -> payload_field key run = field key entries.
Proof. intros ->. reflexivity. Qed.

(** C3, as the code has it.  The cents are the double product
    [price * 100] rounded half up to an integer ([Math.round]): 19.995,
    whose product is exactly 1999.5, gives 2000; the exact half 0.005,
    whose product is exactly 0.5, gives 1; and 19.99, whose product is
    below 1999, gives 1999.  In general the cents are the largest integer
    not above the product plus one half, and a service with a key pair
    encodes them as they are whenever they fit in 128 bits. *)
Theorem purchasePrice_rounds_half_up (asset : Asset.t) (price : float) :
  Asset.purchasePrice asset = Some price ->
  (price = 19.995%float ->
   purchasePrice_cents asset = Js.Int 2000 /\
   exists q, Js.exact (price * 100)%float = Some q /\ (q == 3999 # 2)%Q) /\
  (price = 0.005%float ->
   purchasePrice_cents asset = Js.Int 1 /\
   exists q, Js.exact (price * 100)%float = Some q /\ (q == 1 # 2)%Q) /\
  (price = 19.99%float ->
   purchasePrice_cents asset = Js.Int 1999 /\
   exists q, Js.exact (price * 100)%float = Some q /\ (1998 + (1 # 2) < q < 1999)%Q) /\
  (forall q, Js.truthy price = true -> Js.exact (price * 100)%float = Some q ->
     purchasePrice_cents asset = Js.Int (Js.round_half_up q)) /\
  (forall now w this kp cents,
     keypair this = Some kp -> purchasePrice_cents asset = Js.Int cents ->
     - 2 ^ 127 <= cents < 2 ^ 127 ->
     payload_field "purchase_value" (assetScVal asset now w this) = Some (scvI128 cents)).
Proof.
  intros Hprice. unfold purchasePrice_cents. rewrite Hprice.
  split; [intros ->; split; [vm_compute; reflexivity|];
          eexists; split; [vm_compute; reflexivity | reflexivity]|].
  split; [intros ->; split; [vm_compute; reflexivity|];
          eexists; split; [vm_compute; reflexivity | reflexivity]|].
  split; [intros ->; split; [vm_compute; reflexivity|];
          eexists; split; [vm_compute; reflexivity | split; reflexivity]|].
  split.
  - intros q -> Hq. apply JsFacts.Math_round_half_up, Hq.
  - intros now w this kp cents Hkp Hcents Hrange.
    destruct (assetScVal_built asset now w this kp cents Hkp)
      as (entries & Hrun & _ & _ & _ & _ & _ & _ & _ & _ & _ & Hvalue & _).
    + unfold purchasePrice_cents. rewrite Hprice. exact Hcents.
    + rewrite (payload_field_built _ _ _ _ _ Hrun), Hvalue.
      rewrite (JsFacts.asIntN_in_range cents Hrange). reflexivity.
Qed.


(** When the product is not finite no record is built: [BigInt] throws a
    RangeError. *)
Lemma assetScVal_refuses_infinite (asset : Asset.t) (now : Z) (w : World)
    (this : Service) (kp : Keypair) (price : float) :
  keypair this = Some kp ->
  Asset.purchasePrice asset = Some price -> Js.truthy price = true ->
  Js.exact (price * 100)%float = None ->
  exists e, assetScVal asset now w this = (inl (RangeError e), this, []).
Proof.
  intros Hkp Hprice Htruthy Hq.
  destruct (JsFacts.Math_round_not_finite _ Hq) as (e & He).
  exists e. unfold assetScVal, purchasePrice_cents.
  rewrite Hprice, Htruthy.
  destruct this as [en k srv cid np]; cbn in Hkp; subst k.
  cbn -[Js.BigInt Js.Math_round deriveAssetId mapStatus]. rewrite He. reflexivity.
Qed.

End Payload.

(** ** Confirmation polling *)

Section Polling.

Context `{sdk : StellarSdk}.

(** One iteration of the loop, when the status query is answered. *)
Lemma poll_loop_step (remaining attempt : nat) (txHash status : string)
    (w : World) (this : Service) (srv : Server) :
  server this = Some srv ->
  getTransaction w srv attempt txHash = inr status ->
  poll_loop (S remaining) attempt txHash w this =
    if bool_decide (status = "SUCCESS") then
      (inr txHash, this,
       [ev_sleep 3000; ev_getTransaction txHash;
        ev_log LOG ("Transaction confirmed: " +:+ txHash)])
    else if bool_decide (status = "FAILED") then
      (inl (Error ("Transaction failed on-chain: " +:+ txHash)), this,
       [ev_sleep 3000; ev_getTransaction txHash])
    else
      let '(r, this', t) := poll_loop remaining (S attempt) txHash w this in
      (r, this',
       [ev_sleep 3000; ev_getTransaction txHash;
        ev_log DEBUG ("Poll attempt " +:+ pretty attempt +:+ "/" +:+ pretty MAX_ATTEMPTS
                      +:+ ": status=" +:+ status)] ++ t).
Proof.
  intros Hsrv Hget.
  destruct this as [en kp s cid np]; cbn in Hsrv; subst s.
  cbn [poll_loop]. unfold mbind, M_bind, bind, sleep, emit, get_this, member, world, lift.
  cbn [server mret M_ret ret]. rewrite Hget.
  destruct (bool_decide (status = "SUCCESS")); [reflexivity|].
  destruct (bool_decide (status = "FAILED")); [reflexivity|].
  unfold logger_debug, emit.
  destruct (poll_loop remaining (S attempt) txHash w _) as [[r this'] t].
  reflexivity.
Qed.

(** The loop never writes a field of the object. *)
Lemma poll_loop_final (remaining attempt : nat) (txHash : string) (w : World) (this : Service) :
  final (poll_loop remaining attempt txHash w this) = this.
Proof.
  revert attempt. induction remaining as [|remaining IH]; intros attempt; [reflexivity|].
  destruct (server this) as [srv|] eqn:Hsrv.
  - destruct (getTransaction w srv attempt txHash) as [e|status] eqn:Hget.
    + destruct this as [en kp s cid np]; cbn in Hsrv; subst s.
      cbn [poll_loop]. unfold mbind, M_bind, bind, sleep, emit, get_this, member, world, lift.
      cbn [server mret M_ret ret]. rewrite Hget. reflexivity.
    + rewrite (poll_loop_step _ _ _ _ _ _ _ Hsrv Hget).
      destruct (bool_decide (status = "SUCCESS")); [reflexivity|].
      destruct (bool_decide (status = "FAILED")); [reflexivity|].
      specialize (IH (S attempt)).
      destruct (poll_loop remaining (S attempt) txHash w this) as [[r this'] t].
      exact IH.
  - destruct this as [en kp s cid np]; cbn in Hsrv; subst s. reflexivity.
Qed.

(** While the statuses are not terminal the loop goes on: [pending]
    iterations cost [pending] sleeps and status queries and lead to the
    rest of the loop. *)
Lemma poll_loop_pending (pending remaining attempt : nat) (txHash : string)
    (w : World) (this : Service) (srv : Server) (status : nat -> string) :
  server this = Some srv ->
  (forall n, getTransaction w srv n txHash = inr (status n)) ->
  (forall k, (attempt <= k < attempt + pending)%nat -> ~ terminal (status k)) ->
  let run := poll_loop (pending + remaining) attempt txHash w this in
  let rest := poll_loop remaining (attempt + pending) txHash w this in
  outcome run = outcome rest /\
  count is_status_query (trace run) = (pending + count is_status_query (trace rest))%nat /\
  count is_poll (trace run) = (2 * pending + count is_poll (trace rest))%nat.
Proof.
  intros Hsrv Hget. revert attempt.
  induction pending as [|pending IH]; intros attempt Hpending; cbn zeta.
  - rewrite Nat.add_0_r. cbn [Nat.add Nat.mul]. auto.
  - cbn [Nat.add].
    rewrite (poll_loop_step _ _ _ _ _ _ _ Hsrv (Hget attempt)).
    assert (Hnow : ~ terminal (status attempt)) by (apply Hpending; lia).
    unfold terminal in Hnow.
    rewrite !bool_decide_eq_false_2 by tauto.
    specialize (IH (S attempt)). cbn zeta in IH.
    replace (attempt + S pending)%nat with (S attempt + pending)%nat by lia.
    destruct IH as (Hout & Hqueries & Hpolls); [intros k Hk; apply Hpending; lia|].
    destruct (poll_loop (pending + remaining) (S attempt) txHash w this) as [[r this'] t].
    unfold outcome, trace in *. cbn in *.
    repeat split; [exact Hout | rewrite Hqueries; lia | rewrite Hpolls; lia].
Qed.

(** C2. Let the status queries of a submitted transaction be answered by
    [status 1], [status 2], ...  If the first terminal answer is SUCCESS
    and comes at attempt [N <= 20], the hash is returned after exactly [N]
    queries; if the first 20 answers are all non-terminal, the timeout
    error is thrown after 20 queries; if the first terminal answer is
    FAILED at attempt [N <= 20], the on-chain failure is thrown at once,
    after exactly [N] queries.  Each query is preceded by one sleep. *)
Theorem pollForConfirmation_outcomes (txHash : string) (w : World) (this : Service)
    (srv : Server) (status : nat -> string) :
  server this = Some srv ->
  (forall n, getTransaction w srv n txHash = inr (status n)) ->
  let run := pollForConfirmation txHash w this in
  (forall N, (1 <= N <= 20)%nat ->
     (forall k, (1 <= k < N)%nat -> ~ terminal (status k)) ->
     status N = "SUCCESS" ->
     outcome run = inr txHash /\
     count is_status_query (trace run) = N /\ count is_poll (trace run) = (2 * N)%nat) /\
  ((forall k, (1 <= k <= 20)%nat -> ~ terminal (status k)) ->
     outcome run
     = inl (Error ("Transaction not confirmed after 20 attempts: " +:+ txHash)) /\
     count is_status_query (trace run) = 20%nat /\ count is_poll (trace run) = 40%nat) /\
  (forall N, (1 <= N <= 20)%nat ->
     (forall k, (1 <= k < N)%nat -> ~ terminal (status k)) ->
     status N = "FAILED" ->
     outcome run = inl (Error ("Transaction failed on-chain: " +:+ txHash)) /\
     count is_status_query (trace run) = N /\ count is_poll (trace run) = (2 * N)%nat).
Proof.
  intros Hsrv Hget run. subst run. unfold pollForConfirmation, MAX_ATTEMPTS.
  assert (Hsplit : forall N, (1 <= N <= 20)%nat ->
            (forall k, (1 <= k < N)%nat -> ~ terminal (status k)) ->
            let run := poll_loop 20 1 txHash w this in
            let rest := poll_loop (S (20 - N)) N txHash w this in
            outcome run = outcome rest /\
            count is_status_query (trace run)
            = (N - 1 + count is_status_query (trace rest))%nat /\
            count is_poll (trace run) = (2 * (N - 1) + count is_poll (trace rest))%nat).
  { intros N HN Hpending.
    pose proof (poll_loop_pending (N - 1) (S (20 - N)) 1 txHash w this srv status
                  Hsrv Hget) as H.
    replace (N - 1 + S (20 - N))%nat with 20%nat in H by lia.
    replace (1 + (N - 1))%nat with N in H by lia.
    apply H. intros k Hk. apply Hpending. lia. }
  split; [|split].
  - intros N HN Hpending Hsuccess.
    destruct (Hsplit N HN Hpending) as (Hout & Hqueries & Hpolls).
    rewrite Hout, Hqueries, Hpolls.
    rewrite (poll_loop_step _ _ _ _ _ _ _ Hsrv (Hget N)), Hsuccess.
    rewrite (bool_decide_eq_true_2 ("SUCCESS" = "SUCCESS")) by reflexivity.
    cbn. repeat split; lia.
  - intros Hpending.
    pose proof (poll_loop_pending 20 0 1 txHash w this srv status Hsrv Hget) as H.
    cbn zeta in H. destruct H as (Hout & Hqueries & Hpolls).
    { intros k Hk. apply Hpending. lia. }
    change (20 + 0)%nat with 20%nat in *.
    rewrite Hout, Hqueries, Hpolls. cbn. repeat split.
  - intros N HN Hpending Hfailed.
    destruct (Hsplit N HN Hpending) as (Hout & Hqueries & Hpolls).
    rewrite Hout, Hqueries, Hpolls.
    rewrite (poll_loop_step _ _ _ _ _ _ _ Hsrv (Hget N)), Hfailed.
    rewrite (bool_decide_eq_false_2 ("FAILED" = "SUCCESS")) by discriminate.
    rewrite (bool_decide_eq_true_2 ("FAILED" = "FAILED")) by reflexivity.
    cbn. repeat split; lia.
Qed.

End Polling.

(** ** Registration: simulate, submit, poll *)

Section Registration.

Context `{sdk : StellarSdk}.

(** The run of [registerAsset] once the record is built, the account
    fetched and the contract handle made: what remains depends on the
    answers to the simulation and to the submission. *)
Lemma registerAsset_run (asset : Asset.t) (w : World) (this : Service)
    (kp : Keypair) (srv : Server) (payload : ScVal) (account : Account)
    (contract : Contract) :
  keypair this = Some kp ->
  server this = Some srv ->
  assetScVal asset (Date_now w / 1000) w this = (inr payload, this, []) ->
  getAccount w srv (Keypair_publicKey kp) = inr account ->
  Contract_new (contractId this) = inr contract ->
  let pk := Keypair_publicKey kp in
  let tx := build_transaction account (networkPassphrase this) contract payload in
  registerAsset asset w this =
    match simulateTransaction w srv tx with
    | inl e => (inl e, this, [ev_getAccount pk; ev_simulateTransaction tx])
    | inr (SimulationError error) =>
        (inl (Error ("Simulation failed: " +:+ error)), this,
         [ev_getAccount pk; ev_simulateTransaction tx])
    | inr (SimulationSuccess data) =>
        let assembled := sign (assembleTransaction tx data) kp in
        match sendTransaction w srv assembled with
        | inl e =>
            (inl e, this,
             [ev_getAccount pk; ev_simulateTransaction tx; ev_sendTransaction assembled])
        | inr sendResult =>
            if bool_decide (send_status sendResult = "ERROR") then
              (inl (Error ("Transaction submission failed: "
                           +:+ stringify (send_errorResult sendResult))), this,
               [ev_getAccount pk; ev_simulateTransaction tx; ev_sendTransaction assembled])
            else
              let '(r, this', t) := pollForConfirmation (send_hash sendResult) w this in
              (r, this',
               [ev_getAccount pk; ev_simulateTransaction tx; ev_sendTransaction assembled;
                ev_log LOG ("Transaction submitted: " +:+ send_hash sendResult
                            +:+ ", polling for confirmation...")] ++ t)
        end
    end.
Proof.
  intros Hkp Hsrv Hpayload Haccount Hcontract pk tx. subst pk tx.
  unfold registerAsset.
  unfold mbind at 1, M_bind at 1, bind at 1, world at 1. cbn beta iota zeta.
  unfold mbind at 1, M_bind at 1, bind at 1. rewrite Hpayload.
  destruct this as [en k s cid np]; cbn in Hkp, Hsrv, Hcontract; subst k s.
  unfold mbind, M_bind, bind, get_this, member, logger_log, emit, lift, throw.
  cbn [keypair server contractId networkPassphrase mret M_ret ret app].
  rewrite Haccount, Hcontract.
  destruct (simulateTransaction w srv _) as [e|[error|data]]; try reflexivity.
  destruct (sendTransaction w srv _) as [e|sendResult]; try reflexivity.
  destruct (bool_decide (send_status sendResult = "ERROR")); try reflexivity.
  destruct (pollForConfirmation _ _ _) as [[r this'] t]. reflexivity.
Qed.

Lemma count_In (p : event -> bool) (e : event) (t : list event) :
  In e t -> p e = true -> (0 < count p t)%nat.
Proof.
  induction t as [|e' t IH]; cbn; [tauto|].
  intros [-> | Hin] Hp; [rewrite Hp; lia | specialize (IH Hin Hp); lia].
Qed.

(** The polling loop neither simulates nor submits. *)
Lemma poll_loop_only_polls (remaining attempt : nat) (txHash : string)
    (w : World) (this : Service) :
  count is_simulation (trace (poll_loop remaining attempt txHash w this)) = 0%nat /\
  count is_submission (trace (poll_loop remaining attempt txHash w this)) = 0%nat.
Proof.
  revert attempt. induction remaining as [|remaining IH]; intros attempt; [split; reflexivity|].
  destruct (server this) as [srv|] eqn:Hsrv.
  - destruct (getTransaction w srv attempt txHash) as [e|status] eqn:Hget.
    + destruct this as [en kp s cid np]; cbn in Hsrv; subst s.
      cbn [poll_loop]. unfold mbind, M_bind, bind, sleep, emit, get_this, member, world, lift.
      cbn [server mret M_ret ret]. rewrite Hget. split; reflexivity.
    + rewrite (poll_loop_step _ _ _ _ _ _ _ Hsrv Hget).
      destruct (bool_decide (status = "SUCCESS")); [split; reflexivity|].
      destruct (bool_decide (status = "FAILED")); [split; reflexivity|].
      specialize (IH (S attempt)).
      destruct (poll_loop remaining (S attempt) txHash w this) as [[r this'] t].
      exact IH.
  - destruct this as [en kp s cid np]; cbn in Hsrv; subst s. split; reflexivity.
Qed.

(** Before the simulation, [registerAsset] either has all it needs or
    stops with an exception, having at most asked for the account. *)
Lemma registerAsset_cases (asset : Asset.t) (w : World) (this : Service) :
  (exists kp srv payload account contract,
     keypair this = Some kp /\ server this = Some srv /\
     assetScVal asset (Date_now w / 1000) w this = (inr payload, this, []) /\
     getAccount w srv (Keypair_publicKey kp) = inr account /\
     Contract_new (contractId this) = inr contract) \/
  (exists e t,
     registerAsset asset w this = (inl e, this, t) /\
     count is_simulation t = 0%nat /\ count is_submission t = 0%nat /\
     count is_poll t = 0%nat).
Proof.
  destruct this as [en [kp|] s cid np];
    [|right; do 2 eexists; split; [reflexivity | repeat split]].
  destruct (Js.BigInt (purchasePrice_cents asset)) as [e|cents] eqn:Hcents.
  { right. do 2 eexists. split.
    - unfold registerAsset, assetScVal.
      unfold mbind, M_bind, bind, world, get_this, member, lift.
      cbn [keypair mret M_ret ret]. rewrite Hcents. reflexivity.
    - repeat split. }
  assert (Hpayload : exists payload, forall now,
            assetScVal asset now w (Build_Service en (Some kp) s cid np)
            = (inr (payload now), Build_Service en (Some kp) s cid np, [])).
  { eexists (fun now => _). intros now. unfold assetScVal.
    unfold mbind, M_bind, bind, get_this, member, lift.
    cbn [keypair mret M_ret ret]. rewrite Hcents. reflexivity. }
  destruct Hpayload as (payload & Hpayload).
  assert (Hstart : forall k : ScVal -> M string,
            (payload ← assetScVal asset (Date_now w / 1000); k payload)
              w (Build_Service en (Some kp) s cid np)
            = k (payload (Date_now w / 1000)) w (Build_Service en (Some kp) s cid np)).
  { intros k. unfold mbind, M_bind, bind. rewrite Hpayload.
    destruct (k _ w _) as [[r this'] t]. reflexivity. }
  destruct s as [srv|].
  2: { right. do 2 eexists. split.
       - unfold registerAsset.
         unfold mbind at 1, M_bind at 1, bind at 1, world at 1. cbn beta iota zeta.
         rewrite Hstart. reflexivity.
       - repeat split. }
  destruct (getAccount w srv (Keypair_publicKey kp)) as [e|account] eqn:Haccount.
  { right. do 2 eexists. split.
    - unfold registerAsset.
      unfold mbind at 1, M_bind at 1, bind at 1, world at 1. cbn beta iota zeta.
      rewrite Hstart.
      unfold mbind, M_bind, bind, get_this, member, emit, lift.
      cbn [keypair server mret M_ret ret app]. rewrite Haccount. reflexivity.
    - repeat split. }
  destruct (Contract_new cid) as [e|contract] eqn:Hcontract.
  { right. do 2 eexists. split.
    - unfold registerAsset.
      unfold mbind at 1, M_bind at 1, bind at 1, world at 1. cbn beta iota zeta.
      rewrite Hstart.
      unfold mbind, M_bind, bind, get_this, member, emit, lift.
      cbn [keypair server contractId mret M_ret ret app]. rewrite Haccount, Hcontract.
      reflexivity.
    - repeat split. }
  left. exists kp, srv, (payload (Date_now w / 1000)), account, contract.
  repeat split; try reflexivity; try assumption. apply Hpayload.
Qed.

(** No call of [registerAsset] writes a field of the object. *)
Lemma registerAsset_final (asset : Asset.t) (w : World) (this : Service) :
  final (registerAsset asset w this) = this.
Proof.
  destruct (registerAsset_cases asset w this)
    as [(kp & srv & payload & account & contract & Hkp & Hsrv & Hpayload & Hacc & Hcon)
       | (e & t & -> & _)]; [|reflexivity].
  rewrite (registerAsset_run _ _ _ _ _ _ _ _ Hkp Hsrv Hpayload Hacc Hcon). cbn zeta.
  destruct (simulateTransaction w srv _) as [e|[error|data]]; try reflexivity.
  destruct (sendTransaction w srv _) as [e|sendResult]; try reflexivity.
  destruct (bool_decide (send_status sendResult = "ERROR")); try reflexivity.
  unfold pollForConfirmation.
  pose proof (poll_loop_final MAX_ATTEMPTS 1 (send_hash sendResult) w this) as Hfinal.
  destruct (poll_loop _ _ _ _ _) as [[r this'] t]. exact Hfinal.
Qed.

Lemma count_zero_not_In (p : event -> bool) (e : event) (t : list event) :
  count p t = 0%nat -> p e = true -> ~ In e t.
Proof. intros Hzero Hp Hin. pose proof (count_In p e t Hin Hp). lia. Qed.

Lemma pollForConfirmation_only_polls (txHash : string) (w : World) (this : Service)
    (r : result string) (this' : Service) (t : list event) :
  pollForConfirmation txHash w this = (r, this', t) ->
  count is_simulation t = 0%nat /\ count is_submission t = 0%nat.
Proof.
  intros Hrun. pose proof (poll_loop_only_polls MAX_ATTEMPTS 1 txHash w this) as H.
  unfold pollForConfirmation in Hrun. rewrite Hrun in H. exact H.
Qed.

(** C6. When the simulation that [registerAsset] has asked for reports an
    error, the call throws "Simulation failed: ..." with that error; the
    simulation is the last thing it did: it was asked once, nothing was
    submitted and nothing was polled. *)
Theorem simulation_error_aborts (asset : Asset.t) (w : World) (this : Service)
    (srv : Server) (tx : Transaction) (error : string) :
  server this = Some srv ->
  In (ev_simulateTransaction tx) (trace (registerAsset asset w this)) ->
  simulateTransaction w srv tx = inr (SimulationError error) ->
  let run := registerAsset asset w this in
  outcome run = inl (Error ("Simulation failed: " +:+ error)) /\
  count is_submission (trace run) = 0%nat /\
  count is_simulation (trace run) = 1%nat /\
  count is_poll (trace run) = 0%nat /\
  last (trace run) = Some (ev_simulateTransaction tx) /\
  final run = this.
Proof.
  intros Hsrv Hin Hsim run. subst run.
  destruct (registerAsset_cases asset w this)
    as [(kp & srv' & payload & account & contract & Hkp & Hsrv' & Hpayload & Hacc & Hcon)
       | (e & t & Hrun & Hnosim & _)].
  2:{ rewrite Hrun in Hin. exfalso.
      exact (count_zero_not_In is_simulation (ev_simulateTransaction tx) t Hnosim eq_refl Hin). }
  assert (srv' = srv) as -> by congruence.
  rewrite (registerAsset_run _ _ _ _ _ _ _ _ Hkp Hsrv Hpayload Hacc Hcon) in Hin |- *.
  cbn zeta in Hin |- *.
  set (tx0 := build_transaction account (networkPassphrase this) contract payload) in *.
  assert (Heq : tx = tx0).
  { destruct (simulateTransaction w srv tx0) as [e|[error'|data]].
    1,2: cbn in Hin; destruct Hin as [Hin|[Hin|[]]]; congruence.
    destruct (sendTransaction w srv _) as [e|sendResult].
    { cbn in Hin. destruct Hin as [Hin|[Hin|[Hin|[]]]]; congruence. }
    destruct (bool_decide (send_status sendResult = "ERROR")).
    { cbn in Hin. destruct Hin as [Hin|[Hin|[Hin|[]]]]; congruence. }
    destruct (pollForConfirmation _ _ _) as [[r this'] t] eqn:Hpoll.
    apply pollForConfirmation_only_polls in Hpoll as [Hnosim _].
    cbn in Hin. destruct Hin as [Hin|[Hin|[Hin|[Hin|Hin]]]]; try congruence.
    exfalso. exact (count_zero_not_In is_simulation (ev_simulateTransaction tx) t Hnosim eq_refl Hin). }
  subst tx. rewrite Hsim. repeat split.
Qed.

(** C7. When the submission that [registerAsset] has made is answered
    with status ERROR, the call throws "Transaction submission failed: ..."
    with the printed error payload of the answer; the submission is the
    last thing it did: one submission, no sleep and no status query. *)
Theorem submission_error_raises (asset : Asset.t) (w : World) (this : Service)
    (srv : Server) (tx : Transaction) (sendResult : SendTransactionResponse) :
  server this = Some srv ->
  In (ev_sendTransaction tx) (trace (registerAsset asset w this)) ->
  sendTransaction w srv tx = inr sendResult ->
  send_status sendResult = "ERROR" ->
  let run := registerAsset asset w this in
  outcome run
  = inl (Error ("Transaction submission failed: " +:+ stringify (send_errorResult sendResult))) /\
  (forall payload, send_errorResult sendResult = Some payload ->
     outcome run
     = inl (Error ("Transaction submission failed: " +:+ JSON_stringify payload))) /\
  count is_poll (trace run) = 0%nat /\
  count is_submission (trace run) = 1%nat /\
  last (trace run) = Some (ev_sendTransaction tx) /\
  final run = this.
Proof.
  intros Hsrv Hin Hsend Hstatus run. subst run.
  destruct (registerAsset_cases asset w this)
    as [(kp & srv' & payload & account & contract & Hkp & Hsrv' & Hpayload & Hacc & Hcon)
       | (e & t & Hrun & _ & Hnosub & _)].
  2:{ rewrite Hrun in Hin. exfalso.
      exact (count_zero_not_In is_submission (ev_sendTransaction tx) t Hnosub eq_refl Hin). }
  assert (srv' = srv) as -> by congruence.
  rewrite (registerAsset_run _ _ _ _ _ _ _ _ Hkp Hsrv Hpayload Hacc Hcon) in Hin |- *.
  cbn zeta in Hin |- *.
  set (tx0 := build_transaction account (networkPassphrase this) contract payload) in *.
  destruct (simulateTransaction w srv tx0) as [e|[error'|data]].
  1,2: cbn in Hin; destruct Hin as [Hin|[Hin|[]]]; congruence.
  set (assembled := sign (assembleTransaction tx0 data) kp) in *.
  assert (Heq : tx = assembled).
  { destruct (sendTransaction w srv assembled) as [e|sendResult'].
    { cbn in Hin. destruct Hin as [Hin|[Hin|[Hin|[]]]]; congruence. }
    destruct (bool_decide (send_status sendResult' = "ERROR")).
    { cbn in Hin. destruct Hin as [Hin|[Hin|[Hin|[]]]]; congruence. }
    destruct (pollForConfirmation _ _ _) as [[r this'] t] eqn:Hpoll.
    apply pollForConfirmation_only_polls in Hpoll as [_ Hnosub].
    cbn in Hin. destruct Hin as [Hin|[Hin|[Hin|[Hin|Hin]]]]; try congruence.
    exfalso. exact (count_zero_not_In is_submission (ev_sendTransaction tx) t Hnosub eq_refl Hin). }
  subst tx. rewrite Hsend, Hstatus.
  rewrite (bool_decide_eq_true_2 ("ERROR" = "ERROR")) by reflexivity.
  repeat split. intros payload' ->. reflexivity.
Qed.

(** Every transaction that [registerAsset] simulates or submits is one
    call of [register_asset] on the record built for the asset. *)
Lemma registerAsset_record (asset : Asset.t) (w : World) (this : Service)
    (tx : Transaction) :
  In (ev_simulateTransaction tx) (trace (registerAsset asset w this)) \/
  In (ev_sendTransaction tx) (trace (registerAsset asset w this)) ->
  exists contract payload,
    assetScVal asset (Date_now w / 1000) w this = (inr payload, this, []) /\
    tx_operations tx = [invokeContract contract "register_asset" [payload]].
Proof.
  intros Hin.
  destruct (registerAsset_cases asset w this)
    as [(kp & srv & payload & account & contract & Hkp & Hsrv & Hpayload & Hacc & Hcon)
       | (e & t & Hrun & Hnosim & Hnosub & _)].
  2:{ rewrite Hrun in Hin. exfalso. destruct Hin as [Hin|Hin].
      - exact (count_zero_not_In is_simulation (ev_simulateTransaction tx) t Hnosim eq_refl Hin).
      - exact (count_zero_not_In is_submission (ev_sendTransaction tx) t Hnosub eq_refl Hin). }
  exists contract, payload. split; [exact Hpayload|].
  rewrite (registerAsset_run _ _ _ _ _ _ _ _ Hkp Hsrv Hpayload Hacc Hcon) in Hin.
  cbn zeta in Hin.
  set (tx0 := build_transaction account (networkPassphrase this) contract payload) in *.
  assert (Hshape : forall data rest,
            count is_simulation rest = 0%nat -> count is_submission rest = 0%nat ->
            In (ev_simulateTransaction tx)
              (ev_getAccount (Keypair_publicKey kp) :: ev_simulateTransaction tx0 ::
               ev_sendTransaction (sign (assembleTransaction tx0 data) kp) :: rest) \/
            In (ev_sendTransaction tx)
              (ev_getAccount (Keypair_publicKey kp) :: ev_simulateTransaction tx0 ::
               ev_sendTransaction (sign (assembleTransaction tx0 data) kp) :: rest) ->
            tx_operations tx = [invokeContract contract "register_asset" [payload]]).
  { intros data rest Hnosim Hnosub [H|H]; cbn in H;
      destruct H as [H|[H|[H|H]]]; try discriminate.
    - injection H as <-. reflexivity.
    - exfalso.
      exact (count_zero_not_In is_simulation (ev_simulateTransaction tx) rest Hnosim eq_refl H).
    - injection H as <-. reflexivity.
    - exfalso.
      exact (count_zero_not_In is_submission (ev_sendTransaction tx) rest Hnosub eq_refl H). }
  destruct (simulateTransaction w srv tx0) as [e|[error|data]].
  1,2: destruct Hin as [Hin|Hin]; cbn in Hin; destruct Hin as [Hin|[Hin|[]]];
       try discriminate; injection Hin as <-; reflexivity.
  destruct (sendTransaction w srv _) as [e|sendResult];
    [apply (Hshape data []); [reflexivity | reflexivity | exact Hin]|].
  destruct (bool_decide (send_status sendResult = "ERROR"));
    [apply (Hshape data []); [reflexivity | reflexivity | exact Hin]|].
  destruct (pollForConfirmation _ _ _) as [[r this'] t] eqn:Hpoll.
  apply pollForConfirmation_only_polls in Hpoll as [Hnosim Hnosub].
  apply (Hshape data (ev_log LOG ("Transaction submitted: " +:+ send_hash sendResult
                                  +:+ ", polling for confirmation...") :: t));
    [exact Hnosim | exact Hnosub | exact Hin].
Qed.

(** C10. For a started service and whatever the asset (its price in
    cents being finite), the record is built, it is the argument of the
    [register_asset] call in every transaction that [registerAsset]
    simulates or submits, and it has [custom_attributes] empty,
    [last_transfer_timestamp] zero, [metadata_uri] empty and [owner] the
    address of the service's key pair; a missing description and a missing
    category (or category name) become the empty string. *)
Theorem assetScVal_fixed_fields (asset : Asset.t) (w : World)
    (this : Service) (kp : Keypair) (cents : Z) :
  keypair this = Some kp ->
  purchasePrice_cents asset = Js.Int cents ->
  let run := assetScVal asset (Date_now w / 1000) w this in
  (exists entries,
     run = (inr (scvMap entries), this, []) /\
     forall tx,
       In (ev_simulateTransaction tx) (trace (registerAsset asset w this)) \/
       In (ev_sendTransaction tx) (trace (registerAsset asset w this)) ->
       exists contract,
         tx_operations tx = [invokeContract contract "register_asset" [scvMap entries]]) /\
  payload_field "custom_attributes" run = Some (scvVec []) /\
  payload_field "last_transfer_timestamp" run = Some (scvU64 0) /\
  payload_field "metadata_uri" run = Some (scvString "") /\
  payload_field "owner" run = Some (scvAddress (Keypair_publicKey kp)) /\
  (Asset.description asset = None ->
   payload_field "description" run = Some (scvString "")) /\
  (Asset.category asset = None \/
   (exists c, Asset.category asset = Some c /\ Category.name c = None) ->
   payload_field "category" run = Some (scvString "")) /\
  (forall text, Asset.description asset = Some text ->
   payload_field "description" run = Some (scvString text)) /\
  (forall c text, Asset.category asset = Some c -> Category.name c = Some text ->
   payload_field "category" run = Some (scvString text)).
Proof.
  intros Hkp Hcents run.
  destruct (assetScVal_built asset (Date_now w / 1000) w this kp cents Hkp Hcents)
    as (entries & Hrun & _ & Hcat & Hattrs & Hdesc & _ & Hlast & Huri & _ & Howner & _).
  subst run. rewrite !(payload_field_built _ _ _ _ _ Hrun).
  split.
  { exists entries. split; [exact Hrun|]. intros tx Hin.
    destruct (registerAsset_record asset w this tx Hin) as (contract & payload & Hp & Hops).
    exists contract. rewrite Hops. congruence. }
  repeat split; try assumption.
  - intros Hnone. rewrite Hdesc, Hnone. reflexivity.
  - intros [Hnone | (c & Hc & Hname)]; rewrite Hcat.
    + rewrite Hnone. reflexivity.
    + rewrite Hc. cbn. rewrite Hname. reflexivity.
  - intros text Htext. rewrite Hdesc, Htext. reflexivity.
  - intros c text Hc Hname. rewrite Hcat, Hc. cbn. rewrite Hname. reflexivity.
Qed.

End Registration.

(** ** Start-up and enablement *)

Section Enablement.

Context `{sdk : StellarSdk}.

(** Without the exact setting "true" the start only clears the flag. *)
Lemma onModuleInit_disabled (w : World) (this : Service) :
  config w !! "STELLAR_ENABLED" <> Some "true" ->
  onModuleInit w this
  = (inr tt, with_enabled false this,
     [ev_log LOG "Stellar integration is disabled (STELLAR_ENABLED != true)"]).
Proof.
  intros Hflag. unfold onModuleInit.
  unfold configService_get, logger_log.
  unfold mbind, M_bind, bind, world, set_this, get_this, emit.
  cbn [mret M_ret ret enabled with_enabled app].
  rewrite bool_decide_eq_false_2 by exact Hflag. reflexivity.
Qed.

(** Enabled, but without a secret key or a contract identifier. *)
Lemma onModuleInit_misconfigured (w : World) (this : Service) :
  config w !! "STELLAR_ENABLED" = Some "true" ->
  truthy_string (config w !! "STELLAR_SECRET_KEY") = None \/
  truthy_string (config w !! "STELLAR_CONTRACT_ID") = None ->
  onModuleInit w this
  = (inr tt,
     with_enabled false
       (with_networkPassphrase
          (default Networks_TESTNET (config w !! "STELLAR_NETWORK_PASSPHRASE"))
          (with_contractId (config w !! "STELLAR_CONTRACT_ID") (with_enabled true this))),
     [ev_log ERROR
        "STELLAR_SECRET_KEY and STELLAR_CONTRACT_ID must be set when STELLAR_ENABLED=true"]).
Proof.
  intros Hflag Hmissing. unfold onModuleInit.
  unfold configService_get, configService_get_or, logger_log, logger_error.
  unfold mbind, M_bind, bind, world, set_this, get_this, emit.
  cbn [mret M_ret ret enabled with_enabled with_contractId with_networkPassphrase
       contractId app negb].
  rewrite bool_decide_eq_true_2 by exact Hflag. cbn [negb].
  destruct Hmissing as [-> | ->]; [reflexivity|].
  destruct (truthy_string (config w !! "STELLAR_SECRET_KEY")); reflexivity.
Qed.

(** With every setting present and accepted by the SDK the service is
    ready. *)
Lemma onModuleInit_enabled (w : World) (this : Service) (key cid : string)
    (kp : Keypair) (srv : Server) :
  config w !! "STELLAR_ENABLED" = Some "true" ->
  truthy_string (config w !! "STELLAR_SECRET_KEY") = Some key ->
  truthy_string (config w !! "STELLAR_CONTRACT_ID") = Some cid ->
  Keypair_fromSecret key = inr kp ->
  Server_new (default "https://soroban-testnet.stellar.org" (config w !! "STELLAR_RPC_URL"))
  = inr srv ->
  onModuleInit w this
  = (inr tt,
     {| enabled := true; keypair := Some kp; server := Some srv;
        contractId := config w !! "STELLAR_CONTRACT_ID";
        networkPassphrase :=
          Some (default Networks_TESTNET (config w !! "STELLAR_NETWORK_PASSPHRASE")) |},
     [ev_log LOG ("Stellar integration enabled. Public key: " +:+ Keypair_publicKey kp)]).
Proof.
  intros Hflag Hkey Hcid Hkp Hsrv. unfold onModuleInit.
  unfold configService_get, configService_get_or, logger_log, logger_error.
  unfold mbind, M_bind, bind, world, set_this, get_this, emit, lift.
  cbn [mret M_ret ret enabled with_enabled with_contractId with_networkPassphrase
       contractId app negb].
  rewrite bool_decide_eq_true_2 by exact Hflag. cbn [negb].
  rewrite Hkey, Hcid, Hkp, Hsrv. reflexivity.
Qed.

(** A client's calls leave the object as the start made it. *)
Lemma after_calls_same (calls : list call) (this : Service) :
  after_calls calls this = this.
Proof.
  unfold after_calls. induction calls as [|c calls IH]; [reflexivity|].
  cbn [fold_left]. replace (after_call this c) with this; [exact IH|].
  destruct c; cbn [after_call]; [reflexivity | reflexivity |].
  symmetry. apply registerAsset_final.
Qed.

(** Without a key pair [registerAsset] stops at the [owner] entry of the
    record, before any call to the network. *)
Lemma registerAsset_without_keypair (asset : Asset.t) (w : World) (this : Service) :
  keypair this = None ->
  registerAsset asset w this
  = (inl (TypeError "Cannot read properties of undefined (reading 'publicKey')"), this, []).
Proof.
  intros Hkp. destruct this as [en k s cid np]; cbn in Hkp; subst k. reflexivity.
Qed.

(** C1, as the code has it.  When STELLAR_ENABLED is absent or is not
    exactly "true", the start succeeds, [isEnabled] is false and neither
    key pair nor RPC handle exists.  [registerAsset] does not look at the
    flag: called then, it makes no network call and emits nothing, but it
    is the runtime that stops it, with the TypeError of reading
    [publicKey] of the undefined key pair. *)
Theorem disabled_bridge (w : World) :
  config w !! "STELLAR_ENABLED" <> Some "true" ->
  let start := onModuleInit w new_StellarService in
  let this := final start in
  outcome start = inr tt /\
  isEnabled this = false /\ keypair this = None /\ server this = None /\
  forall asset w',
    registerAsset asset w' this
    = (inl (TypeError "Cannot read properties of undefined (reading 'publicKey')"),
       this, []).
Proof.
  intros Hflag start this. subst this start.
  rewrite (onModuleInit_disabled w _ Hflag).
  do 4 (split; [reflexivity|]).
  intros asset w'. apply registerAsset_without_keypair. reflexivity.
Qed.

(** C9. With STELLAR_ENABLED set to "true" but the secret key or the
    contract identifier missing (absent, or empty), the start logs one
    error and leaves the bridge disabled: no key pair, no RPC handle, and
    [isEnabled] false then and after any calls of the clients. *)
Theorem misconfigured_bridge_disabled (w : World) :
  config w !! "STELLAR_ENABLED" = Some "true" ->
  truthy_string (config w !! "STELLAR_SECRET_KEY") = None \/
  truthy_string (config w !! "STELLAR_CONTRACT_ID") = None ->
  let start := onModuleInit w new_StellarService in
  outcome start = inr tt /\
  trace start
  = [ev_log ERROR
       "STELLAR_SECRET_KEY and STELLAR_CONTRACT_ID must be set when STELLAR_ENABLED=true"] /\
  isEnabled (final start) = false /\
  keypair (final start) = None /\ server (final start) = None /\
  forall calls, isEnabled (after_calls calls (final start)) = false.
Proof.
  intros Hflag Hmissing start. subst start.
  rewrite (onModuleInit_misconfigured w _ Hflag Hmissing).
  do 5 (split; [reflexivity|]).
  intros calls. rewrite after_calls_same. reflexivity.
Qed.

End Enablement.

(** ** Runs of the small instance *)

(** A start with the full configuration, then a registration that is
    confirmed at the third status query. *)
Example start_then_register :
  onModuleInit (Demo.healthy Demo.full_config) new_StellarService
  = (inr tt, Demo.ready,
     [ev_log LOG "Stellar integration enabled. Public key: GSKEY"]) /\
  outcome (registerAsset (Demo.asset (Some 19.99%float))
             (Demo.healthy Demo.full_config) Demo.ready) = inr "abc123" /\
  count is_status_query
    (trace (registerAsset (Demo.asset (Some 19.99%float))
              (Demo.healthy Demo.full_config) Demo.ready)) = 3%nat.
Proof. vm_compute. repeat split. Qed.

(** C1, as stated, fails: with no setting at all the call of
    [registerAsset] neither returns nor reports that the bridge is
    disabled. *)
Lemma registerAsset_disabled_not_inert :
  config (Demo.healthy ∅) !! "STELLAR_ENABLED" = None /\
  ~ bridge_inert (Demo.healthy ∅) (Demo.asset None).
Proof.
  split; [reflexivity|].
  intros [_ [[v Hv] | [message Hv]]]; vm_compute in Hv; discriminate.
Qed.

Lemma disabled_bridge_witness :
  let w := Demo.healthy {[ "STELLAR_ENABLED" := "TRUE" ]} in
  let this := final (onModuleInit w new_StellarService) in
  isEnabled this = false /\
  registerAsset (Demo.asset None) w this
  = (inl (TypeError "Cannot read properties of undefined (reading 'publicKey')"), this, []).
Proof.
  intros w this.
  destruct (disabled_bridge (sdk := Demo.sdk) w) as (_ & Henabled & _ & _ & Hregister).
  - vm_compute. discriminate.
  - split; [exact Henabled | apply Hregister].
Defined.

Lemma misconfigured_bridge_disabled_witness :
  let w := Demo.healthy {[ "STELLAR_ENABLED" := "true"; "STELLAR_CONTRACT_ID" := "CONTRACT" ]} in
  isEnabled (final (onModuleInit w new_StellarService)) = false /\
  isEnabled (after_calls [call_registerAsset (Demo.asset None) w; call_isEnabled]
               (final (onModuleInit w new_StellarService))) = false.
Proof.
  intros w.
  destruct (misconfigured_bridge_disabled (sdk := Demo.sdk) w)
    as (_ & _ & Henabled & _ & _ & Hafter).
  - vm_compute. reflexivity.
  - left. vm_compute. reflexivity.
  - split; [exact Henabled | apply Hafter].
Defined.

Lemma pollForConfirmation_outcomes_witness :
  let w := Demo.answering in
  (outcome (pollForConfirmation "abc123" (w (Demo.pending_until 20 "SUCCESS")) Demo.ready)
   = inr "abc123" /\
   count is_status_query
     (trace (pollForConfirmation "abc123" (w (Demo.pending_until 20 "SUCCESS")) Demo.ready))
   = 20%nat) /\
  outcome (pollForConfirmation "abc123" (w (Demo.pending_until 21 "SUCCESS")) Demo.ready)
  = inl (Error "Transaction not confirmed after 20 attempts: abc123") /\
  (outcome (pollForConfirmation "abc123" (w (Demo.pending_until 4 "FAILED")) Demo.ready)
   = inl (Error "Transaction failed on-chain: abc123") /\
   count is_status_query
     (trace (pollForConfirmation "abc123" (w (Demo.pending_until 4 "FAILED")) Demo.ready))
   = 4%nat).
Proof.
  intros w.
  assert (Hpending : forall n status k, (k < n)%nat ->
            ~ terminal (Demo.pending_until n status k)).
  { intros n status k Hk. unfold Demo.pending_until, terminal.
    destruct (Nat.ltb_spec k n); [|lia]. intros [Hs|Hf]; discriminate. }
  split; [|split].
  - destruct (pollForConfirmation_outcomes (sdk := Demo.sdk) "abc123"
                (w (Demo.pending_until 20 "SUCCESS")) Demo.ready
                "https://soroban-testnet.stellar.org" (Demo.pending_until 20 "SUCCESS")
                eq_refl (fun n => eq_refl)) as (Hsuccess & _ & _).
    destruct (Hsuccess 20%nat) as (Hout & Hqueries & _);
      [lia | intros k Hk; apply Hpending; lia | reflexivity |].
    split; [exact Hout | exact Hqueries].
  - destruct (pollForConfirmation_outcomes (sdk := Demo.sdk) "abc123"
                (w (Demo.pending_until 21 "SUCCESS")) Demo.ready
                "https://soroban-testnet.stellar.org" (Demo.pending_until 21 "SUCCESS")
                eq_refl (fun n => eq_refl)) as (_ & Htimeout & _).
    destruct Htimeout as (Hout & _); [intros k Hk; apply Hpending; lia | exact Hout].
  - destruct (pollForConfirmation_outcomes (sdk := Demo.sdk) "abc123"
                (w (Demo.pending_until 4 "FAILED")) Demo.ready
                "https://soroban-testnet.stellar.org" (Demo.pending_until 4 "FAILED")
                eq_refl (fun n => eq_refl)) as (_ & _ & Hfailed).
    destruct (Hfailed 4%nat) as (Hout & Hqueries & _);
      [lia | intros k Hk; apply Hpending; lia | reflexivity |].
    split; [exact Hout | exact Hqueries].
Defined.

Lemma purchasePrice_rounds_half_up_witness :
  purchasePrice_cents (Demo.asset (Some 19.995%float)) = Js.Int 2000 /\
  payload_field "purchase_value"
    (assetScVal (Demo.asset (Some 19.995%float)) 1700000000
       (Demo.healthy Demo.full_config) Demo.ready)
  = Some (scvI128 2000).
Proof.
  destruct (purchasePrice_rounds_half_up (sdk := Demo.sdk)
              (Demo.asset (Some 19.995%float)) 19.995%float eq_refl)
    as (Hcents & _ & _ & _ & Hfield).
  destruct (Hcents eq_refl) as (Hvalue & _).
  split; [exact Hvalue|].
  apply (Hfield 1700000000 (Demo.healthy Demo.full_config) Demo.ready "SKEY").
  - reflexivity.
  - exact Hvalue.
  - split; [vm_compute; discriminate | reflexivity].
Defined.

(** C3, as stated, fails: it is the double product that is rounded, not
    the decimal price.  The numerals 1.005 and 0.285 denote exact halves
    of a cent, which rounded half up give 101 and 29 cents; their doubles
    (within half a unit in the last place of the numerals) lie just
    below, the products are 100.49999999999999 and 28.499999999999996,
    and the code gives 100 and 28. *)
Lemma purchasePrice_not_decimal_half_up :
  (decimal_half_up_cents (1005 # 1000) = 101 /\
   purchasePrice_cents (Demo.asset (Some 1.005%float)) = Js.Int 100 /\
   exists q, Js.exact 1.005%float = Some q /\
             ((1005 # 1000) - (1 # 2 ^ 53) <= q < 1005 # 1000)%Q) /\
  (decimal_half_up_cents (285 # 1000) = 29 /\
   purchasePrice_cents (Demo.asset (Some 0.285%float)) = Js.Int 28 /\
   exists q, Js.exact 0.285%float = Some q /\
             ((285 # 1000) - (1 # 2 ^ 55) <= q < 285 # 1000)%Q).
Proof.
  split.
  - split; [vm_compute; reflexivity|]. split; [vm_compute; reflexivity|].
    eexists. split; [vm_compute; reflexivity|].
    split; [vm_compute; discriminate | vm_compute; reflexivity].
  - split; [vm_compute; reflexivity|]. split; [vm_compute; reflexivity|].
    eexists. split; [vm_compute; reflexivity|].
    split; [vm_compute; discriminate | vm_compute; reflexivity].
Qed.



(** Outside the 128 bits the encoding wraps: a price of 1.8e36 has
    1.8e38 cents, which is not below 2^127, and the record carries that
    number less 2^128. *)
Example purchase_value_wraps :
  purchasePrice_cents (Demo.asset (Some 1.8e36%float))
  = Js.Int 179999999999999984614178123333712740352 /\
  payload_field "purchase_value"
    (assetScVal (Demo.asset (Some 1.8e36%float)) 1700000000
       (Demo.healthy Demo.full_config) Demo.ready)
  = Some (scvI128 (-160282366920938478849196484098055471104)).
Proof. split; vm_compute; reflexivity. Qed.

(** The price is tested as it is: zero, minus zero and [NaN] are falsy
    and give 0 cents without a multiplication.  For [NaN] the product
    would have been [NaN], which [BigInt] refuses. *)
Example purchasePrice_falsy :
  purchasePrice_cents (Demo.asset (Some nan)) = Js.Int 0 /\
  purchasePrice_cents (Demo.asset (Some (-0)%float)) = Js.Int 0 /\
  Js.Math_round (nan * 100)%float = Js.NaN /\
  Js.truthy nan = false /\ Js.truthy 0%float = false /\ Js.truthy (-0)%float = false /\
  Js.truthy 19.99%float = true /\ Js.truthy infinity = true.
Proof. repeat split; vm_compute; reflexivity. Qed.

Lemma assetScVal_fixed_fields_witness :
  let run := assetScVal (Demo.asset (Some 19.99%float))
               (Date_now (Demo.healthy Demo.full_config) / 1000)
               (Demo.healthy Demo.full_config) Demo.ready in
  payload_field "custom_attributes" run = Some (scvVec []) /\
  payload_field "last_transfer_timestamp" run = Some (scvU64 0) /\
  payload_field "metadata_uri" run = Some (scvString "") /\
  payload_field "owner" run = Some (scvAddress "GSKEY") /\
  payload_field "description" run = Some (scvString "").
Proof.
  intros run.
  destruct (assetScVal_fixed_fields (sdk := Demo.sdk) (Demo.asset (Some 19.99%float))
              (Demo.healthy Demo.full_config) Demo.ready "SKEY" 1999
              eq_refl eq_refl)
    as (_ & Hattrs & Hlast & Huri & Howner & Hdesc & _).
  split; [exact Hattrs|]. split; [exact Hlast|]. split; [exact Huri|].
  split; [exact Howner|]. apply Hdesc. reflexivity.
Defined.

Lemma simulation_error_aborts_witness :
  let run := registerAsset (Demo.asset (Some 19.99%float)) Demo.refusing Demo.ready in
  outcome run = inl (Error "Simulation failed: HostError: contract trapped") /\
  count is_submission (trace run) = 0%nat /\
  count is_poll (trace run) = 0%nat.
Proof.
  intros run.
  assert (Hasked : exists tx, In (ev_simulateTransaction tx) (trace run))
    by (vm_compute; eexists; right; left; reflexivity).
  destruct Hasked as (tx & Hin).
  destruct (simulation_error_aborts (sdk := Demo.sdk) (Demo.asset (Some 19.99%float))
              Demo.refusing Demo.ready "https://soroban-testnet.stellar.org" tx
              "HostError: contract trapped" eq_refl Hin eq_refl)
    as (Hout & Hsub & _ & Hpoll & _).
  split; [exact Hout|]. split; [exact Hsub | exact Hpoll].
Defined.

Lemma submission_error_raises_witness :
  let run := registerAsset (Demo.asset (Some 19.99%float)) Demo.rejecting Demo.ready in
  outcome run = inl (Error "Transaction submission failed: txBadSeq") /\
  count is_poll (trace run) = 0%nat.
Proof.
  intros run.
  assert (Hsent : exists tx, In (ev_sendTransaction tx) (trace run))
    by (vm_compute; eexists; right; right; left; reflexivity).
  destruct Hsent as (tx & Hin).
  destruct (submission_error_raises (sdk := Demo.sdk) (Demo.asset (Some 19.99%float))
              Demo.rejecting Demo.ready "https://soroban-testnet.stellar.org" tx
              (Demo.sent "ERROR" (Some "txBadSeq")) eq_refl Hin eq_refl eq_refl)
    as (_ & Hpayload & Hpoll & _).
  split; [apply (Hpayload "txBadSeq"); reflexivity | exact Hpoll].
Defined.

(** The rounding applies to the double product, not to the decimal
    numeral: 1.005 times 100 is 100.49999999999999, hence 100 cents. *)
Example purchasePrice_1_005 :
  purchasePrice_cents (Demo.asset (Some 1.005%float)) = Js.Int 100.
Proof. vm_compute. reflexivity. Qed.

(** * Further properties of the bridge *)

(** ** Polling, whatever the network answers *)

Section PollingBounds.

Context `{sdk : StellarSdk}.

(** One iteration of the loop, in every case. *)
Lemma poll_loop_unfold (remaining attempt : nat) (txHash : string)
    (w : World) (this : Service) :
  poll_loop (S remaining) attempt txHash w this =
    match server this with
    | None =>
        (inl (TypeError "Cannot read properties of undefined (reading 'getTransaction')"),
         this, [ev_sleep 3000])
    | Some srv =>
        match getTransaction w srv attempt txHash with
        | inl e => (inl e, this, [ev_sleep 3000; ev_getTransaction txHash])
        | inr status =>
            if bool_decide (status = "SUCCESS") then
              (inr txHash, this,
               [ev_sleep 3000; ev_getTransaction txHash;
                ev_log LOG ("Transaction confirmed: " +:+ txHash)])
            else if bool_decide (status = "FAILED") then
              (inl (Error ("Transaction failed on-chain: " +:+ txHash)), this,
               [ev_sleep 3000; ev_getTransaction txHash])
            else
              let '(r, this', t) := poll_loop remaining (S attempt) txHash w this in
              (r, this',
               [ev_sleep 3000; ev_getTransaction txHash;
                ev_log DEBUG ("Poll attempt " +:+ pretty attempt +:+ "/"
                              +:+ pretty MAX_ATTEMPTS +:+ ": status=" +:+ status)] ++ t)
        end
    end.
Proof.
  destruct (server this) as [srv|] eqn:Hsrv.
  - destruct (getTransaction w srv attempt txHash) as [e|status] eqn:Hget.
    + destruct this as [en kp s cid np]; cbn in Hsrv; subst s.
      cbn [poll_loop]. unfold sleep.
      unfold mbind, M_bind, bind, emit, get_this, member, world, lift.
      cbn [server mret M_ret ret]. rewrite Hget. reflexivity.
    + apply (poll_loop_step _ _ _ _ _ _ _ Hsrv Hget).
  - destruct this as [en kp s cid np]; cbn in Hsrv; subst s. reflexivity.
Qed.

Lemma poll_loop_measures (remaining attempt : nat) (txHash : string)
    (w : World) (this : Service) :
  let t := trace (poll_loop remaining attempt txHash w this) in
  (count is_status_query t <= count is_sleep t)%nat /\
  (count is_sleep t <= remaining)%nat /\
  slept t = 3000 * Z.of_nat (count is_sleep t) /\
  count is_account_query t = 0%nat.
Proof.
  revert attempt. induction remaining as [|remaining IH]; intros attempt.
  { cbn. repeat split; lia. }
  cbn zeta. rewrite poll_loop_unfold.
  destruct (server this) as [srv|]; [|cbn; repeat split; lia].
  destruct (getTransaction w srv attempt txHash) as [e|status]; [cbn; repeat split; lia|].
  destruct (bool_decide (status = "SUCCESS")); [cbn; repeat split; lia|].
  destruct (bool_decide (status = "FAILED")); [cbn; repeat split; lia|].
  specialize (IH (S attempt)). cbn zeta in IH.
  destruct (poll_loop remaining (S attempt) txHash w this) as [[r this'] t].
  unfold trace in *. cbn in *. destruct IH as (Hq & Hs & Hms & Hacc).
  repeat split; try lia.
Qed.

(** Whatever the endpoint answers (statuses, rejections) and whatever the
    state of the service, [pollForConfirmation] asks for the status at
    most 20 times, never without having slept first, sleeps 3000 ms at a
    time and at most 60 seconds in all, and calls nothing else on the
    endpoint. *)
Theorem pollForConfirmation_bounded (txHash : string) (w : World) (this : Service) :
  let t := trace (pollForConfirmation txHash w this) in
  (count is_status_query t <= 20)%nat /\
  (count is_status_query t <= count is_sleep t)%nat /\
  slept t = 3000 * Z.of_nat (count is_sleep t) /\
  0 <= slept t <= 60000 /\
  count is_rpc t = count is_status_query t.
Proof.
  cbn zeta. unfold pollForConfirmation.
  pose proof (poll_loop_measures MAX_ATTEMPTS 1 txHash w this) as (Hq & Hs & Hms & Hacc).
  pose proof (poll_loop_only_polls MAX_ATTEMPTS 1 txHash w this) as (Hsim & Hsub).
  cbn zeta in *. unfold MAX_ATTEMPTS in *.
  set (t := trace (poll_loop 20 1 txHash w this)) in *.
  assert (Hrpc : count is_rpc t
                 = (count is_account_query t + count is_simulation t
                    + count is_submission t + count is_status_query t)%nat).
  { clear. induction t as [|e t IH]; [reflexivity|].
    destruct e; cbn; rewrite IH; lia. }
  repeat split; try lia.
Qed.

End PollingBounds.

(** ** What a registration returns, and when *)

Section Confirmation.

Context `{sdk : StellarSdk}.

(** Pending answers in a range of attempts lead to the rest of the loop;
    nothing is asked of the answers outside the range. *)
Lemma poll_loop_pending_range (pending remaining attempt : nat) (txHash : string)
    (w : World) (this : Service) (srv : Server) :
  server this = Some srv ->
  (forall k, (attempt <= k < attempt + pending)%nat ->
     exists status, getTransaction w srv k txHash = inr status /\ ~ terminal status) ->
  let run := poll_loop (pending + remaining) attempt txHash w this in
  let rest := poll_loop remaining (attempt + pending) txHash w this in
  outcome run = outcome rest /\
  count is_status_query (trace run) = (pending + count is_status_query (trace rest))%nat.
Proof.
  intros Hsrv. revert attempt.
  induction pending as [|pending IH]; intros attempt Hpending; cbn zeta.
  - rewrite Nat.add_0_r. auto.
  - cbn [Nat.add]. rewrite poll_loop_unfold, Hsrv.
    destruct (Hpending attempt) as (status & -> & Hnow); [lia|].
    unfold terminal in Hnow. rewrite !bool_decide_eq_false_2 by tauto.
    specialize (IH (S attempt)). cbn zeta in IH.
    replace (attempt + S pending)%nat with (S attempt + pending)%nat by lia.
    destruct IH as (Hout & Hqueries); [intros k Hk; apply Hpending; lia|].
    destruct (poll_loop (pending + remaining) (S attempt) txHash w this) as [[r this'] t].
    unfold outcome, trace in *. cbn in *. split; [exact Hout | rewrite Hqueries; lia].
Qed.

(** The loop returns nothing but the hash it was given, and only after a
    status query within its attempts was answered SUCCESS. *)
Lemma poll_loop_confirmed (remaining attempt : nat) (txHash hash : string)
    (w : World) (this : Service) :
  outcome (poll_loop remaining attempt txHash w this) = inr hash ->
  hash = txHash /\
  exists srv k,
    server this = Some srv /\ (attempt <= k < attempt + remaining)%nat /\
    getTransaction w srv k txHash = inr "SUCCESS".
Proof.
  revert attempt. induction remaining as [|remaining IH]; intros attempt; [discriminate|].
  rewrite poll_loop_unfold.
  destruct (server this) as [srv|] eqn:Hsrv; [|discriminate].
  destruct (getTransaction w srv attempt txHash) as [e|status] eqn:Hget; [discriminate|].
  destruct (bool_decide (status = "SUCCESS")) eqn:Hsuccess.
  { apply bool_decide_eq_true_1 in Hsuccess. subst status.
    intros [= <-]. split; [reflexivity|]. exists srv, attempt. repeat split; [lia|lia|exact Hget]. }
  destruct (bool_decide (status = "FAILED")); [discriminate|].
  specialize (IH (S attempt)).
  destruct (poll_loop remaining (S attempt) txHash w this) as [[r this'] t].
  unfold outcome in *. cbn in *. intros Hr.
  destruct (IH Hr) as (-> & srv' & k & Hsrv' & Hk & Hget').
  split; [reflexivity|]. exists srv', k.
  split; [exact Hsrv'|]. split; [lia | exact Hget'].
Qed.

(** A status query that is rejected ends the polling with the rejection:
    after non-terminal answers to the attempts before [N], the error of
    attempt [N] is the error of [pollForConfirmation], and no further query
    is made. *)
Theorem pollForConfirmation_rejection (txHash : string) (w : World) (this : Service)
    (srv : Server) (N : nat) (e : js_error) :
  server this = Some srv ->
  (1 <= N <= 20)%nat ->
  (forall k, (1 <= k < N)%nat ->
     exists status, getTransaction w srv k txHash = inr status /\ ~ terminal status) ->
  getTransaction w srv N txHash = inl e ->
  let run := pollForConfirmation txHash w this in
  outcome run = inl e /\ count is_status_query (trace run) = N.
Proof.
  intros Hsrv HN Hpending Hreject run. subst run.
  unfold pollForConfirmation, MAX_ATTEMPTS.
  pose proof (poll_loop_pending_range (N - 1) (S (20 - N)) 1 txHash w this srv Hsrv) as H.
  replace (N - 1 + S (20 - N))%nat with 20%nat in H by lia.
  replace (1 + (N - 1))%nat with N in H by lia.
  destruct H as (Hout & Hqueries); [intros k Hk; apply Hpending; lia|].
  rewrite Hout, Hqueries, poll_loop_unfold, Hsrv, Hreject.
  cbn. split; [reflexivity | lia].
Qed.

(** [registerAsset] returns a hash only when everything went through:
    the hash is the one the endpoint gave at submission, the submission
    was not answered ERROR, and one of the (at most 20) status queries on
    that hash was answered SUCCESS. *)
Theorem registerAsset_returns_confirmed (asset : Asset.t) (w : World) (this : Service)
    (hash : string) :
  outcome (registerAsset asset w this) = inr hash ->
  exists srv tx sendResult k,
    server this = Some srv /\
    In (ev_sendTransaction tx) (trace (registerAsset asset w this)) /\
    sendTransaction w srv tx = inr sendResult /\
    send_status sendResult <> "ERROR" /\
    send_hash sendResult = hash /\
    (1 <= k <= 20)%nat /\
    getTransaction w srv k hash = inr "SUCCESS".
Proof.
  destruct (registerAsset_cases asset w this)
    as [(kp & srv & payload & account & contract & Hkp & Hsrv & Hpayload & Hacc & Hcon)
       | (e & t & -> & _)]; [|discriminate].
  rewrite (registerAsset_run _ _ _ _ _ _ _ _ Hkp Hsrv Hpayload Hacc Hcon). cbn zeta.
  set (tx0 := build_transaction account (networkPassphrase this) contract payload).
  destruct (simulateTransaction w srv tx0) as [e|[error|data]]; try discriminate.
  set (assembled := sign (assembleTransaction tx0 data) kp).
  destruct (sendTransaction w srv assembled) as [e|sendResult] eqn:Hsend; [discriminate|].
  destruct (bool_decide (send_status sendResult = "ERROR")) eqn:Hstatus; [discriminate|].
  apply bool_decide_eq_false_1 in Hstatus.
  unfold pollForConfirmation.
  pose proof (poll_loop_confirmed MAX_ATTEMPTS 1 (send_hash sendResult) hash w this) as Hpoll.
  destruct (poll_loop MAX_ATTEMPTS 1 (send_hash sendResult) w this) as [[r this'] t].
  unfold outcome, trace in *. cbn in *. intros Hr.
  destruct (Hpoll Hr) as (-> & srv' & k & Hsrv' & Hk & Hget).
  assert (srv' = srv) as -> by congruence.
  exists srv, assembled, sendResult, k.
  repeat split; try assumption; try reflexivity; try (unfold MAX_ATTEMPTS in Hk; lia).
  right. right. left. reflexivity.
Qed.

End Confirmation.

Section Outcomes.

Context `{sdk : StellarSdk}.

(** The run of a registration whose submission is accepted: four events,
    then the polling of the hash the endpoint gave. *)
Lemma registerAsset_accepted (asset : Asset.t) (w : World) (this : Service)
    (kp : Keypair) (srv : Server) (cents : Z) (account : Account) (contract : Contract)
    (data : SimulationData) (sendResult : SendTransactionResponse) :
  keypair this = Some kp ->
  server this = Some srv ->
  purchasePrice_cents asset = Js.Int cents ->
  getAccount w srv (Keypair_publicKey kp) = inr account ->
  Contract_new (contractId this) = inr contract ->
  (forall tx, simulateTransaction w srv tx = inr (SimulationSuccess data)) ->
  (forall tx, sendTransaction w srv tx = inr sendResult) ->
  send_status sendResult <> "ERROR" ->
  exists tx0 tx1 line,
    registerAsset asset w this =
      let '(r, this', t) := pollForConfirmation (send_hash sendResult) w this in
      (r, this',
       [ev_getAccount (Keypair_publicKey kp); ev_simulateTransaction tx0;
        ev_sendTransaction tx1; ev_log LOG line] ++ t).
Proof.
  intros Hkp Hsrv Hcents Hacc Hcon Hsim Hsend Hstatus.
  destruct (assetScVal_built asset (Date_now w / 1000) w this kp cents Hkp Hcents)
    as (entries & Hpayload & _).
  do 3 eexists.
  rewrite (registerAsset_run _ _ _ _ _ _ _ _ Hkp Hsrv Hpayload Hacc Hcon). cbn zeta.
  rewrite Hsim, Hsend, (bool_decide_eq_false_2 _ Hstatus). reflexivity.
Qed.

(** The whole flow, when it succeeds.  With a started service, a finite
    price, an account, a valid contract, a successful simulation, a
    submission not answered ERROR, and SUCCESS as the first terminal
    status at attempt [N <= 20]: [registerAsset] returns the hash given
    at submission, having asked once for the account, simulated once,
    submitted once and queried the status [N] times. *)
Theorem registerAsset_confirmed (asset : Asset.t) (w : World) (this : Service)
    (kp : Keypair) (srv : Server) (cents : Z) (account : Account) (contract : Contract)
    (data : SimulationData) (sendResult : SendTransactionResponse) (N : nat) :
  keypair this = Some kp ->
  server this = Some srv ->
  purchasePrice_cents asset = Js.Int cents ->
  getAccount w srv (Keypair_publicKey kp) = inr account ->
  Contract_new (contractId this) = inr contract ->
  (forall tx, simulateTransaction w srv tx = inr (SimulationSuccess data)) ->
  (forall tx, sendTransaction w srv tx = inr sendResult) ->
  send_status sendResult <> "ERROR" ->
  (1 <= N <= 20)%nat ->
  (forall k, (1 <= k < N)%nat ->
     exists status,
       getTransaction w srv k (send_hash sendResult) = inr status /\ ~ terminal status) ->
  getTransaction w srv N (send_hash sendResult) = inr "SUCCESS" ->
  let run := registerAsset asset w this in
  outcome run = inr (send_hash sendResult) /\
  count is_account_query (trace run) = 1%nat /\
  count is_simulation (trace run) = 1%nat /\
  count is_submission (trace run) = 1%nat /\
  count is_status_query (trace run) = N.
Proof.
  intros Hkp Hsrv Hcents Hacc Hcon Hsim Hsend Hstatus HN Hpending Hsuccess run. subst run.
  destruct (registerAsset_accepted asset w this kp srv cents account contract data
              sendResult Hkp Hsrv Hcents Hacc Hcon Hsim Hsend Hstatus)
    as (tx0 & tx1 & line & ->).
  unfold pollForConfirmation.
  pose proof (poll_loop_pending_range (N - 1) (S (20 - N)) 1 (send_hash sendResult)
                w this srv Hsrv) as H.
  replace (N - 1 + S (20 - N))%nat with 20%nat in H by lia.
  replace (1 + (N - 1))%nat with N in H by lia.
  destruct H as (Hout & Hqueries); [intros k Hk; apply Hpending; lia|].
  rewrite (poll_loop_unfold (20 - N) N), Hsrv, Hsuccess in Hout, Hqueries.
  rewrite (bool_decide_eq_true_2 ("SUCCESS" = "SUCCESS")) in Hout, Hqueries by reflexivity.
  pose proof (poll_loop_only_polls MAX_ATTEMPTS 1 (send_hash sendResult) w this)
    as (Hnosim & Hnosub).
  pose proof (poll_loop_measures MAX_ATTEMPTS 1 (send_hash sendResult) w this)
    as (_ & _ & _ & Hnoacc).
  unfold MAX_ATTEMPTS in *. cbn zeta in Hnoacc.
  destruct (poll_loop 20 1 (send_hash sendResult) w this) as [[r this'] t].
  unfold outcome, trace in *. cbn in *.
  repeat split; try lia. exact Hout.
Qed.

(** The two failures after an accepted submission.  If the first terminal
    status is FAILED, at attempt [N <= 20], [registerAsset] throws
    "Transaction failed on-chain: <hash>" after [N] queries; if the 20
    answers are all non-terminal it throws "Transaction not confirmed
    after 20 attempts: <hash>".  In both the hash is the one given at
    submission, and the transaction has been submitted once. *)
Theorem registerAsset_unconfirmed (asset : Asset.t) (w : World) (this : Service)
    (kp : Keypair) (srv : Server) (cents : Z) (account : Account) (contract : Contract)
    (data : SimulationData) (sendResult : SendTransactionResponse) :
  keypair this = Some kp ->
  server this = Some srv ->
  purchasePrice_cents asset = Js.Int cents ->
  getAccount w srv (Keypair_publicKey kp) = inr account ->
  Contract_new (contractId this) = inr contract ->
  (forall tx, simulateTransaction w srv tx = inr (SimulationSuccess data)) ->
  (forall tx, sendTransaction w srv tx = inr sendResult) ->
  send_status sendResult <> "ERROR" ->
  let run := registerAsset asset w this in
  let hash := send_hash sendResult in
  count is_submission (trace run) = 1%nat /\
  (forall N, (1 <= N <= 20)%nat ->
     (forall k, (1 <= k < N)%nat ->
        exists status, getTransaction w srv k hash = inr status /\ ~ terminal status) ->
     getTransaction w srv N hash = inr "FAILED" ->
     outcome run = inl (Error ("Transaction failed on-chain: " +:+ hash)) /\
     count is_status_query (trace run) = N) /\
  ((forall k, (1 <= k <= 20)%nat ->
      exists status, getTransaction w srv k hash = inr status /\ ~ terminal status) ->
   outcome run = inl (Error ("Transaction not confirmed after 20 attempts: " +:+ hash)) /\
   count is_status_query (trace run) = 20%nat).
Proof.
  intros Hkp Hsrv Hcents Hacc Hcon Hsim Hsend Hstatus run hash. subst run hash.
  destruct (registerAsset_accepted asset w this kp srv cents account contract data
              sendResult Hkp Hsrv Hcents Hacc Hcon Hsim Hsend Hstatus)
    as (tx0 & tx1 & line & ->).
  unfold pollForConfirmation.
  pose proof (poll_loop_only_polls MAX_ATTEMPTS 1 (send_hash sendResult) w this)
    as (_ & Hnosub).
  unfold MAX_ATTEMPTS in *.
  split; [|split].
  - destruct (poll_loop 20 1 (send_hash sendResult) w this) as [[r this'] t].
    unfold trace in *. cbn in *. lia.
  - intros N HN Hpending Hfailed.
    pose proof (poll_loop_pending_range (N - 1) (S (20 - N)) 1 (send_hash sendResult)
                  w this srv Hsrv) as H.
    replace (N - 1 + S (20 - N))%nat with 20%nat in H by lia.
    replace (1 + (N - 1))%nat with N in H by lia.
    destruct H as (Hout & Hqueries); [intros k Hk; apply Hpending; lia|].
    rewrite (poll_loop_unfold (20 - N) N), Hsrv, Hfailed in Hout, Hqueries.
    rewrite (bool_decide_eq_false_2 ("FAILED" = "SUCCESS")) in Hout, Hqueries by discriminate.
    rewrite (bool_decide_eq_true_2 ("FAILED" = "FAILED")) in Hout, Hqueries by reflexivity.
    destruct (poll_loop 20 1 (send_hash sendResult) w this) as [[r this'] t].
    unfold outcome, trace in *. cbn in *. split; [exact Hout | lia].
  - intros Hpending.
    pose proof (poll_loop_pending_range 20 0 1 (send_hash sendResult) w this srv Hsrv) as H.
    change (20 + 0)%nat with 20%nat in H.
    destruct H as (Hout & Hqueries); [intros k Hk; apply Hpending; lia|].
    destruct (poll_loop 20 1 (send_hash sendResult) w this) as [[r this'] t].
    unfold outcome, trace in *. cbn in *. split; [exact Hout | lia].
Qed.

End Outcomes.

(** ** Where a registration stops *)

Section Stops.

Context `{sdk : StellarSdk}.

Ltac enter_registerAsset Hpayload :=
  unfold registerAsset;
  unfold mbind at 1, M_bind at 1, bind at 1, world at 1; cbn beta iota zeta;
  unfold mbind at 1, M_bind at 1, bind at 1; rewrite Hpayload.

Lemma registerAsset_record_failed (asset : Asset.t) (w : World) (this : Service)
    (e : js_error) :
  assetScVal asset (Date_now w / 1000) w this = (inl e, this, []) ->
  registerAsset asset w this = (inl e, this, []).
Proof. intros Hpayload. enter_registerAsset Hpayload. reflexivity. Qed.

Lemma registerAsset_without_server (asset : Asset.t) (w : World) (this : Service)
    (payload : ScVal) :
  assetScVal asset (Date_now w / 1000) w this = (inr payload, this, []) ->
  server this = None ->
  registerAsset asset w this
  = (inl (TypeError "Cannot read properties of undefined (reading 'getAccount')"), this, []).
Proof.
  intros Hpayload Hsrv. enter_registerAsset Hpayload.
  destruct this as [en k s cid np]; cbn in Hsrv; subst s. reflexivity.
Qed.

Lemma registerAsset_account_rejected (asset : Asset.t) (w : World) (this : Service)
    (kp : Keypair) (srv : Server) (payload : ScVal) (e : js_error) :
  keypair this = Some kp ->
  server this = Some srv ->
  assetScVal asset (Date_now w / 1000) w this = (inr payload, this, []) ->
  getAccount w srv (Keypair_publicKey kp) = inl e ->
  registerAsset asset w this = (inl e, this, [ev_getAccount (Keypair_publicKey kp)]).
Proof.
  intros Hkp Hsrv Hpayload Hacc. enter_registerAsset Hpayload.
  destruct this as [en k s cid np]; cbn in Hkp, Hsrv; subst k s.
  unfold mbind, M_bind, bind, get_this, member, emit, lift.
  cbn [keypair server mret M_ret ret app]. rewrite Hacc. reflexivity.
Qed.

Lemma registerAsset_contract_refused (asset : Asset.t) (w : World) (this : Service)
    (kp : Keypair) (srv : Server) (payload : ScVal) (account : Account) (e : js_error) :
  keypair this = Some kp ->
  server this = Some srv ->
  assetScVal asset (Date_now w / 1000) w this = (inr payload, this, []) ->
  getAccount w srv (Keypair_publicKey kp) = inr account ->
  Contract_new (contractId this) = inl e ->
  registerAsset asset w this = (inl e, this, [ev_getAccount (Keypair_publicKey kp)]).
Proof.
  intros Hkp Hsrv Hpayload Hacc Hcon. enter_registerAsset Hpayload.
  destruct this as [en k s cid np]; cbn in Hkp, Hsrv, Hcon; subst k s.
  unfold mbind, M_bind, bind, get_this, member, emit, lift.
  cbn [keypair server contractId mret M_ret ret app]. rewrite Hacc, Hcon. reflexivity.
Qed.

(** The record of a service with a key pair: built, or refused by
    [BigInt]. *)
Lemma assetScVal_with_keypair (asset : Asset.t) (now : Z) (w : World) (this : Service)
    (kp : Keypair) :
  keypair this = Some kp ->
  match Js.BigInt (purchasePrice_cents asset) with
  | inl e => assetScVal asset now w this = (inl e, this, [])
  | inr _ => exists payload, assetScVal asset now w this = (inr payload, this, [])
  end.
Proof.
  intros Hkp. destruct this as [en k s cid np]; cbn in Hkp; subst k.
  unfold assetScVal. unfold mbind, M_bind, bind, get_this, member, lift.
  cbn [keypair mret M_ret ret].
  destruct (Js.BigInt (purchasePrice_cents asset)); [reflexivity | eexists; reflexivity].
Qed.

(** [registerAsset] calls the endpoint exactly when the service has a key
    pair and an RPC handle and the price in cents is finite; otherwise it
    throws having done nothing.  When it does call, the first call is the
    request for the account of the service's public key. *)
Theorem registerAsset_contacts_network_iff (asset : Asset.t) (w : World) (this : Service) :
  let run := registerAsset asset w this in
  ((0 < count is_rpc (trace run))%nat <->
   (exists kp srv cents,
      keypair this = Some kp /\ server this = Some srv /\
      Js.BigInt (purchasePrice_cents asset) = inr cents)) /\
  (count is_rpc (trace run) = 0%nat -> trace run = [] /\ exists e, outcome run = inl e) /\
  (forall kp, keypair this = Some kp -> (0 < count is_rpc (trace run))%nat ->
     head (trace run) = Some (ev_getAccount (Keypair_publicKey kp))).
Proof.
  cbn zeta.
  destruct (keypair this) as [kp|] eqn:Hkp.
  2:{ rewrite (registerAsset_without_keypair asset w this Hkp). cbn.
      split; [split|split].
      - lia.
      - intros (kp & _ & _ & Hk & _). discriminate.
      - intros _. split; [reflexivity | eauto].
      - intros kp Hk. discriminate. }
  pose proof (assetScVal_with_keypair asset (Date_now w / 1000) w this kp Hkp) as Hrecord.
  destruct (Js.BigInt (purchasePrice_cents asset)) as [e|cents] eqn:Hcents.
  { rewrite (registerAsset_record_failed asset w this e Hrecord). cbn.
    split; [split|split].
    - lia.
    - intros (_ & _ & c & _ & _ & Hc). discriminate.
    - intros _. split; [reflexivity | eauto].
    - intros kp' _ H. lia. }
  destruct Hrecord as (payload & Hpayload).
  destruct (server this) as [srv|] eqn:Hsrv.
  2:{ rewrite (registerAsset_without_server asset w this payload Hpayload Hsrv). cbn.
      split; [split|split].
      - lia.
      - intros (_ & s & _ & _ & Hs & _). discriminate.
      - intros _. split; [reflexivity | eauto].
      - intros kp' _ H. lia. }
  assert (Hfirst : exists r this' rest,
            registerAsset asset w this
            = (r, this', ev_getAccount (Keypair_publicKey kp) :: rest)).
  { destruct (getAccount w srv (Keypair_publicKey kp)) as [e|account] eqn:Hacc.
    { rewrite (registerAsset_account_rejected _ _ _ _ _ _ _ Hkp Hsrv Hpayload Hacc). eauto. }
    destruct (Contract_new (contractId this)) as [e|contract] eqn:Hcon.
    { rewrite (registerAsset_contract_refused _ _ _ _ _ _ _ _ Hkp Hsrv Hpayload Hacc Hcon).
      eauto. }
    rewrite (registerAsset_run _ _ _ _ _ _ _ _ Hkp Hsrv Hpayload Hacc Hcon). cbn zeta.
    destruct (simulateTransaction w srv _) as [e|[error|data]]; eauto.
    destruct (sendTransaction w srv _) as [e|sendResult]; eauto.
    destruct (bool_decide (send_status sendResult = "ERROR")); eauto.
    destruct (pollForConfirmation _ _ _) as [[r this'] t]. cbn. eauto. }
  destruct Hfirst as (r & this' & rest & ->). cbn.
  split; [split|split].
  - intros _. exists kp, srv, cents. auto.
  - intros _. lia.
  - intros H. lia.
  - intros kp' [= <-] _. reflexivity.
Qed.

(** A rejection or a refusal on the way to the submission is the error of
    [registerAsset], and the flow stops there: a rejected account request
    or a refused contract identifier comes before any simulation, a
    rejected simulation before any submission, a rejected submission
    before any polling. *)
Theorem registerAsset_propagates (asset : Asset.t) (w : World) (this : Service)
    (kp : Keypair) (srv : Server) (cents : Z) (e : js_error) :
  keypair this = Some kp ->
  server this = Some srv ->
  purchasePrice_cents asset = Js.Int cents ->
  let run := registerAsset asset w this in
  let pk := Keypair_publicKey kp in
  (getAccount w srv pk = inl e ->
   outcome run = inl e /\ trace run = [ev_getAccount pk]) /\
  (forall account,
     getAccount w srv pk = inr account -> Contract_new (contractId this) = inl e ->
     outcome run = inl e /\ trace run = [ev_getAccount pk]) /\
  (forall account contract,
     getAccount w srv pk = inr account -> Contract_new (contractId this) = inr contract ->
     (forall tx, simulateTransaction w srv tx = inl e) ->
     outcome run = inl e /\ count is_simulation (trace run) = 1%nat /\
     count is_submission (trace run) = 0%nat /\ count is_poll (trace run) = 0%nat) /\
  (forall account contract data,
     getAccount w srv pk = inr account -> Contract_new (contractId this) = inr contract ->
     (forall tx, simulateTransaction w srv tx = inr (SimulationSuccess data)) ->
     (forall tx, sendTransaction w srv tx = inl e) ->
     outcome run = inl e /\ count is_submission (trace run) = 1%nat /\
     count is_poll (trace run) = 0%nat).
Proof.
  intros Hkp Hsrv Hcents run pk. subst run pk.
  destruct (assetScVal_built asset (Date_now w / 1000) w this kp cents Hkp Hcents)
    as (entries & Hpayload & _).
  split; [|split; [|split]].
  - intros Hacc.
    rewrite (registerAsset_account_rejected _ _ _ _ _ _ _ Hkp Hsrv Hpayload Hacc).
    split; reflexivity.
  - intros account Hacc Hcon.
    rewrite (registerAsset_contract_refused _ _ _ _ _ _ _ _ Hkp Hsrv Hpayload Hacc Hcon).
    split; reflexivity.
  - intros account contract Hacc Hcon Hsim.
    rewrite (registerAsset_run _ _ _ _ _ _ _ _ Hkp Hsrv Hpayload Hacc Hcon). cbn zeta.
    rewrite Hsim. repeat split.
  - intros account contract data Hacc Hcon Hsim Hsend.
    rewrite (registerAsset_run _ _ _ _ _ _ _ _ Hkp Hsrv Hpayload Hacc Hcon). cbn zeta.
    rewrite Hsim, Hsend. repeat split.
Qed.

End Stops.

(** ** What is sent to the endpoint *)

Section Transactions.

Context `{sdk : StellarSdk}.

(** The full trace of a registration that reached the simulation. *)
Lemma registerAsset_trace (asset : Asset.t) (w : World) (this : Service)
    (kp : Keypair) (srv : Server) (payload : ScVal) (account : Account)
    (contract : Contract) :
  keypair this = Some kp ->
  server this = Some srv ->
  assetScVal asset (Date_now w / 1000) w this = (inr payload, this, []) ->
  getAccount w srv (Keypair_publicKey kp) = inr account ->
  Contract_new (contractId this) = inr contract ->
  let tx0 := build_transaction account (networkPassphrase this) contract payload in
  exists rest,
    trace (registerAsset asset w this)
    = ev_getAccount (Keypair_publicKey kp) :: ev_simulateTransaction tx0 :: rest /\
    count is_simulation rest = 0%nat /\
    count is_account_query rest = 0%nat /\
    ((rest = [] /\ forall data, simulateTransaction w srv tx0 <> inr (SimulationSuccess data)) \/
     (exists data rest',
        simulateTransaction w srv tx0 = inr (SimulationSuccess data) /\
        rest = ev_sendTransaction (sign (assembleTransaction tx0 data) kp) :: rest' /\
        count is_submission rest' = 0%nat)).
Proof.
  intros Hkp Hsrv Hpayload Hacc Hcon tx0.
  rewrite (registerAsset_run _ _ _ _ _ _ _ _ Hkp Hsrv Hpayload Hacc Hcon). cbn zeta.
  fold tx0.
  destruct (simulateTransaction w srv tx0) as [e|[error|data]].
  1,2: eexists; split; [reflexivity|]; split; [reflexivity|]; split; [reflexivity|];
       left; split; [reflexivity | intros data; discriminate].
  destruct (sendTransaction w srv _) as [e|sendResult].
  { eexists; split; [reflexivity|]; split; [reflexivity|]; split; [reflexivity|].
    right. exists data, []. repeat split. }
  destruct (bool_decide (send_status sendResult = "ERROR")).
  { eexists; split; [reflexivity|]; split; [reflexivity|]; split; [reflexivity|].
    right. exists data, []. repeat split. }
  unfold pollForConfirmation.
  pose proof (poll_loop_only_polls MAX_ATTEMPTS 1 (send_hash sendResult) w this)
    as (Hnosim & Hnosub).
  pose proof (poll_loop_measures MAX_ATTEMPTS 1 (send_hash sendResult) w this)
    as (_ & _ & _ & Hnoacc).
  cbn zeta in Hnoacc.
  destruct (poll_loop MAX_ATTEMPTS 1 (send_hash sendResult) w this) as [[r this'] t].
  unfold trace in *. cbn in *.
  eexists; split; [reflexivity|]. split; [exact Hnosim|]. split; [exact Hnoacc|].
  right. exists data. eexists. split; [reflexivity|]. split; [reflexivity|]. exact Hnosub.
Qed.


(** Every transaction [registerAsset] simulates is built on the account
    that the endpoint returned for the service's public key, with the
    SDK's base fee, the network passphrase of the service, a time-out
    of 300 seconds, no signature yet, and the contract made from the
    contract identifier of the service; the account is asked once. *)
Theorem registerAsset_simulates_built (asset : Asset.t) (w : World) (this : Service)
    (tx : Transaction) :
  In (ev_simulateTransaction tx) (trace (registerAsset asset w this)) ->
  exists kp srv account contract payload,
    keypair this = Some kp /\ server this = Some srv /\
    getAccount w srv (Keypair_publicKey kp) = inr account /\
    Contract_new (contractId this) = inr contract /\
    tx_source tx = account /\
    tx_fee tx = BASE_FEE /\
    tx_networkPassphrase tx = networkPassphrase this /\
    tx_timeout tx = 300 /\
    tx_operations tx = [invokeContract contract "register_asset" [payload]] /\
    tx_signatures tx = [] /\
    tx_sorobanData tx = None /\
    count is_account_query (trace (registerAsset asset w this)) = 1%nat.
Proof.
  intros Hin.
  destruct (registerAsset_cases asset w this)
    as [(kp & srv & payload & account & contract & Hkp & Hsrv & Hpayload & Hacc & Hcon)
       | (e & t & Hrun & Hnosim & _)].
  2:{ rewrite Hrun in Hin. exfalso.
      exact (count_zero_not_In is_simulation (ev_simulateTransaction tx) t Hnosim eq_refl Hin). }
  destruct (registerAsset_trace asset w this kp srv payload account contract
              Hkp Hsrv Hpayload Hacc Hcon) as (rest & Htrace & Hnosim & Hnoacc & _).
  cbn zeta in Htrace. rewrite Htrace in Hin |- *.
  cbn in Hin. destruct Hin as [Hin|[Hin|Hin]]; try discriminate.
  2:{ exfalso.
      exact (count_zero_not_In is_simulation (ev_simulateTransaction tx) rest Hnosim eq_refl Hin). }
  injection Hin as <-.
  exists kp, srv, account, contract, payload.
  repeat split; try assumption. cbn. rewrite Hnoacc. reflexivity.
Qed.

(** No method called after the start writes a field of the service:
    building the record, polling and the whole registration leave the
    object as it was, whatever the endpoint answers. *)
Theorem methods_leave_service_unchanged (asset : Asset.t) (now : Z) (txHash : string)
    (w : World) (this : Service) :
  final (assetScVal asset now w this) = this /\
  final (pollForConfirmation txHash w this) = this /\
  final (registerAsset asset w this) = this.
Proof.
  split; [|split].
  - destruct this as [en [kp|] s cid np]; [|reflexivity].
    pose proof (assetScVal_with_keypair asset now w
                  (Build_Service en (Some kp) s cid np) kp eq_refl) as H.
    destruct (Js.BigInt (purchasePrice_cents asset)); [rewrite H; reflexivity|].
    destruct H as (payload & ->). reflexivity.
  - apply poll_loop_final.
  - apply registerAsset_final.
Qed.

End Transactions.

(** ** The start, path by path *)

Section Start.

Context `{sdk : StellarSdk}.

Lemma truthy_string_Some (s : option string) (v : string) :
  truthy_string s = Some v -> s = Some v /\ v <> "".
Proof.
  destruct s as [[|c rest]|]; cbn; try discriminate.
  intros [= <-]. split; [reflexivity | discriminate].
Qed.

Lemma onModuleInit_key_rejected (w : World) (this : Service) (key cid : string)
    (e : js_error) :
  config w !! "STELLAR_ENABLED" = Some "true" ->
  truthy_string (config w !! "STELLAR_SECRET_KEY") = Some key ->
  truthy_string (config w !! "STELLAR_CONTRACT_ID") = Some cid ->
  Keypair_fromSecret key = inl e ->
  onModuleInit w this = (inl e, settings_read w this, []).
Proof.
  intros Hflag Hkey Hcid Hkp. unfold onModuleInit, settings_read.
  unfold configService_get, configService_get_or, logger_log, logger_error.
  unfold mbind, M_bind, bind, world, set_this, get_this, emit, lift.
  cbn [mret M_ret ret enabled with_enabled with_contractId with_networkPassphrase
       contractId app negb].
  rewrite bool_decide_eq_true_2 by exact Hflag. cbn [negb].
  rewrite Hkey, Hcid, Hkp. reflexivity.
Qed.

Lemma onModuleInit_url_refused (w : World) (this : Service) (key cid : string)
    (kp : Keypair) (e : js_error) :
  config w !! "STELLAR_ENABLED" = Some "true" ->
  truthy_string (config w !! "STELLAR_SECRET_KEY") = Some key ->
  truthy_string (config w !! "STELLAR_CONTRACT_ID") = Some cid ->
  Keypair_fromSecret key = inr kp ->
  Server_new (default "https://soroban-testnet.stellar.org" (config w !! "STELLAR_RPC_URL"))
  = inl e ->
  onModuleInit w this = (inl e, with_keypair kp (settings_read w this), []).
Proof.
  intros Hflag Hkey Hcid Hkp Hsrv. unfold onModuleInit, settings_read.
  unfold configService_get, configService_get_or, logger_log, logger_error.
  unfold mbind, M_bind, bind, world, set_this, get_this, emit, lift.
  cbn [mret M_ret ret enabled with_enabled with_contractId with_networkPassphrase
       contractId app negb].
  rewrite bool_decide_eq_true_2 by exact Hflag. cbn [negb].
  rewrite Hkey, Hcid, Hkp, Hsrv. reflexivity.
Qed.

(** The five ways through [onModuleInit]. *)
Lemma onModuleInit_cases (w : World) (this : Service) :
  let rpcUrl := default "https://soroban-testnet.stellar.org" (config w !! "STELLAR_RPC_URL") in
  (config w !! "STELLAR_ENABLED" <> Some "true" /\
   onModuleInit w this
   = (inr tt, with_enabled false this,
      [ev_log LOG "Stellar integration is disabled (STELLAR_ENABLED != true)"])) \/
  (config w !! "STELLAR_ENABLED" = Some "true" /\
   (truthy_string (config w !! "STELLAR_SECRET_KEY") = None \/
    truthy_string (config w !! "STELLAR_CONTRACT_ID") = None) /\
   onModuleInit w this
   = (inr tt, with_enabled false (settings_read w this),
      [ev_log ERROR
         "STELLAR_SECRET_KEY and STELLAR_CONTRACT_ID must be set when STELLAR_ENABLED=true"])) \/
  (exists key cid,
     config w !! "STELLAR_ENABLED" = Some "true" /\
     truthy_string (config w !! "STELLAR_SECRET_KEY") = Some key /\
     truthy_string (config w !! "STELLAR_CONTRACT_ID") = Some cid /\
     ((exists e, Keypair_fromSecret key = inl e /\
                 onModuleInit w this = (inl e, settings_read w this, [])) \/
      (exists kp e, Keypair_fromSecret key = inr kp /\ Server_new rpcUrl = inl e /\
                    onModuleInit w this = (inl e, with_keypair kp (settings_read w this), [])) \/
      (exists kp srv, Keypair_fromSecret key = inr kp /\ Server_new rpcUrl = inr srv /\
                      onModuleInit w this
                      = (inr tt, with_server srv (with_keypair kp (settings_read w this)),
                         [ev_log LOG ("Stellar integration enabled. Public key: "
                                      +:+ Keypair_publicKey kp)])))).
Proof.
  cbn zeta.
  destruct (decide (config w !! "STELLAR_ENABLED" = Some "true")) as [Hflag|Hflag].
  2:{ left. split; [exact Hflag | apply onModuleInit_disabled, Hflag]. }
  right.
  destruct (truthy_string (config w !! "STELLAR_SECRET_KEY")) as [key|] eqn:Hkey.
  2:{ left. split; [exact Hflag|]. split; [left; reflexivity|].
      apply onModuleInit_misconfigured; [exact Hflag | left; exact Hkey]. }
  destruct (truthy_string (config w !! "STELLAR_CONTRACT_ID")) as [cid|] eqn:Hcid.
  2:{ left. split; [exact Hflag|]. split; [right; reflexivity|].
      apply onModuleInit_misconfigured; [exact Hflag | right; exact Hcid]. }
  right. exists key, cid. do 3 (split; [first [assumption | reflexivity]|]).
  destruct (Keypair_fromSecret key) as [e|kp] eqn:Hkp.
  { left. exists e. split; [reflexivity|].
    apply (onModuleInit_key_rejected w this key cid e); assumption. }
  right.
  destruct (Server_new _) as [e|srv] eqn:Hsrv.
  { left. exists kp, e. split; [reflexivity|]. split; [reflexivity|].
    apply (onModuleInit_url_refused w this key cid kp e); assumption. }
  right. exists kp, srv. split; [reflexivity|]. split; [reflexivity|].
  rewrite (onModuleInit_enabled w this key cid kp srv Hflag Hkey Hcid Hkp Hsrv).
  reflexivity.
Qed.

End Start.

Section StartProperties.

Context `{sdk : StellarSdk}.

Lemma registerAsset_silent_without_server (asset : Asset.t) (w : World) (this : Service) :
  server this = None ->
  trace (registerAsset asset w this) = [] /\
  exists e, outcome (registerAsset asset w this) = inl e.
Proof.
  intros Hsrv.
  destruct (keypair this) as [kp|] eqn:Hkp.
  2:{ rewrite (registerAsset_without_keypair asset w this Hkp). split; [reflexivity | eauto]. }
  pose proof (assetScVal_with_keypair asset (Date_now w / 1000) w this kp Hkp) as Hrecord.
  destruct (Js.BigInt (purchasePrice_cents asset)) as [e|cents].
  { rewrite (registerAsset_record_failed asset w this e Hrecord). split; [reflexivity | eauto]. }
  destruct Hrecord as (payload & Hpayload).
  rewrite (registerAsset_without_server asset w this payload Hpayload Hsrv).
  split; [reflexivity | eauto].
Qed.

(** After the start of a fresh service, [isEnabled] is true exactly when
    STELLAR_ENABLED is "true" and both the secret key and the contract
    identifier are set and not empty - whether or not the SDK then accepts
    the key and the URL. *)
Theorem isEnabled_after_start (w : World) :
  isEnabled (final (onModuleInit w new_StellarService)) = true <->
  config w !! "STELLAR_ENABLED" = Some "true" /\
  (exists key, config w !! "STELLAR_SECRET_KEY" = Some key /\ key <> "") /\
  (exists cid, config w !! "STELLAR_CONTRACT_ID" = Some cid /\ cid <> "").
Proof.
  destruct (onModuleInit_cases w new_StellarService)
    as [(Hflag & ->) | [(Hflag & Hmissing & ->)
       | (key & cid & Hflag & Hkey & Hcid & Hrest)]]; cbn zeta in *.
  - cbn. split; [discriminate|]. intros (H & _). contradiction.
  - cbn. split; [discriminate|].
    intros (_ & (key & Hk & Hne) & (cid & Hc & Hnc)).
    rewrite Hk, Hc in Hmissing.
    destruct key; [contradiction|]. destruct cid; [contradiction|].
    destruct Hmissing; discriminate.
  - apply truthy_string_Some in Hkey as (Hk & Hne).
    apply truthy_string_Some in Hcid as (Hc & Hnc).
    assert (Henabled : isEnabled (final (onModuleInit w new_StellarService)) = true).
    { destruct Hrest as [(e & _ & ->) | [(kp & e & _ & _ & ->) | (kp & srv & _ & _ & ->)]];
        reflexivity. }
    split; [|intros _; exact Henabled].
    intros _. split; [exact Hflag|]. split; eauto.
Qed.

(** If the start of a fresh service returns and leaves [isEnabled] true,
    the service is complete: key pair, RPC handle, a non-empty contract
    identifier and a passphrase are all set. *)
Theorem enabled_means_ready (w : World) :
  outcome (onModuleInit w new_StellarService) = inr tt ->
  isEnabled (final (onModuleInit w new_StellarService)) = true ->
  exists key kp srv cid,
    config w !! "STELLAR_SECRET_KEY" = Some key /\
    Keypair_fromSecret key = inr kp /\
    Server_new (default "https://soroban-testnet.stellar.org" (config w !! "STELLAR_RPC_URL"))
    = inr srv /\
    cid <> "" /\
    final (onModuleInit w new_StellarService)
    = {| enabled := true; keypair := Some kp; server := Some srv;
         contractId := Some cid;
         networkPassphrase :=
           Some (default Networks_TESTNET (config w !! "STELLAR_NETWORK_PASSPHRASE")) |}.
Proof.
  destruct (onModuleInit_cases w new_StellarService)
    as [(Hflag & ->) | [(Hflag & Hmissing & ->)
       | (key & cid & Hflag & Hkey & Hcid & Hrest)]]; cbn zeta in *;
    [cbn; discriminate | cbn; discriminate |].
  apply truthy_string_Some in Hkey as (Hk & Hne).
  apply truthy_string_Some in Hcid as (Hc & Hnc).
  destruct Hrest as [(e & _ & ->) | [(kp & e & _ & _ & ->) | (kp & srv & Hkp & Hsrv & ->)]];
    [cbn; discriminate | cbn; discriminate |].
  intros _ _. exists key, kp, srv, cid.
  repeat split; try assumption.
  unfold settings_read. cbn. rewrite Hc. reflexivity.
Qed.

(** A start that throws does not clear the flag.  If the SDK rejects the
    secret key, or accepts it and refuses the RPC URL, [onModuleInit]
    throws the SDK's error without logging, and leaves [isEnabled] true
    with no RPC handle; [registerAsset] then throws for every asset
    without calling the endpoint. *)
Theorem failed_start_leaves_flag_set (w : World) (key cid : string) (e : js_error) :
  config w !! "STELLAR_ENABLED" = Some "true" ->
  config w !! "STELLAR_SECRET_KEY" = Some key -> key <> "" ->
  config w !! "STELLAR_CONTRACT_ID" = Some cid -> cid <> "" ->
  Keypair_fromSecret key = inl e \/
  (exists kp, Keypair_fromSecret key = inr kp /\
     Server_new (default "https://soroban-testnet.stellar.org" (config w !! "STELLAR_RPC_URL"))
     = inl e) ->
  let start := onModuleInit w new_StellarService in
  outcome start = inl e /\ trace start = [] /\
  isEnabled (final start) = true /\ server (final start) = None /\
  forall asset w',
    trace (registerAsset asset w' (final start)) = [] /\
    exists e', outcome (registerAsset asset w' (final start)) = inl e'.
Proof.
  intros Hflag Hk Hne Hc Hnc Hsdk start. subst start.
  assert (Hkey : truthy_string (config w !! "STELLAR_SECRET_KEY") = Some key)
    by (rewrite Hk; destruct key; [contradiction | reflexivity]).
  assert (Hcid : truthy_string (config w !! "STELLAR_CONTRACT_ID") = Some cid)
    by (rewrite Hc; destruct cid; [contradiction | reflexivity]).
  destruct Hsdk as [Hkp | (kp & Hkp & Hsrv)].
  - rewrite (onModuleInit_key_rejected w _ key cid e Hflag Hkey Hcid Hkp).
    do 4 (split; [reflexivity|]).
    intros asset w'. apply registerAsset_silent_without_server. reflexivity.
  - rewrite (onModuleInit_url_refused w _ key cid kp e Hflag Hkey Hcid Hkp Hsrv).
    do 4 (split; [reflexivity|]).
    intros asset w'. apply registerAsset_silent_without_server. reflexivity.
Qed.

(** The start never calls the endpoint and never sleeps: it logs exactly
    one line when it returns (an error line exactly when it had to give
    the bridge up for a missing setting) and nothing when it throws. *)
Theorem onModuleInit_quiet (w : World) (this : Service) :
  let start := onModuleInit w this in
  count is_rpc (trace start) = 0%nat /\ count is_sleep (trace start) = 0%nat /\
  ((exists e, outcome start = inl e /\ trace start = []) \/
   (exists level line, outcome start = inr tt /\ trace start = [ev_log level line] /\
      (level = ERROR <->
       config w !! "STELLAR_ENABLED" = Some "true" /\
       (truthy_string (config w !! "STELLAR_SECRET_KEY") = None \/
        truthy_string (config w !! "STELLAR_CONTRACT_ID") = None)))).
Proof.
  cbn zeta.
  destruct (onModuleInit_cases w this)
    as [(Hflag & ->) | [(Hflag & Hmissing & ->)
       | (key & cid & Hflag & Hkey & Hcid & Hrest)]]; cbn zeta in *.
  - do 2 (split; [reflexivity|]). right. do 2 eexists.
    do 2 (split; [reflexivity|]). split; [discriminate|]. intros (H & _). contradiction.
  - do 2 (split; [reflexivity|]). right. do 2 eexists.
    do 2 (split; [reflexivity|]). split; [auto | reflexivity].
  - destruct Hrest as [(e & _ & ->) | [(kp & e & _ & _ & ->) | (kp & srv & _ & _ & ->)]].
    + do 2 (split; [reflexivity|]). left. eauto.
    + do 2 (split; [reflexivity|]). left. eauto.
    + do 2 (split; [reflexivity|]). right. do 2 eexists.
      do 2 (split; [reflexivity|]). split; [discriminate|].
      intros (_ & [H|H]); congruence.
Qed.

(** From the settings to the wire.  After a start that returned with the
    bridge enabled, every transaction a registration simulates carries the
    configured network passphrase (the test network's when none is
    configured) and calls [register_asset] on the contract made from
    STELLAR_CONTRACT_ID, and the account asked for is that of the key pair
    made from STELLAR_SECRET_KEY. *)
Theorem settings_reach_transaction (w0 : World) (asset : Asset.t) (w : World)
    (tx : Transaction) :
  outcome (onModuleInit w0 new_StellarService) = inr tt ->
  isEnabled (final (onModuleInit w0 new_StellarService)) = true ->
  In (ev_simulateTransaction tx)
     (trace (registerAsset asset w (final (onModuleInit w0 new_StellarService)))) ->
  exists key kp contract payload,
    config w0 !! "STELLAR_SECRET_KEY" = Some key /\
    Keypair_fromSecret key = inr kp /\
    head (trace (registerAsset asset w (final (onModuleInit w0 new_StellarService))))
    = Some (ev_getAccount (Keypair_publicKey kp)) /\
    Contract_new (config w0 !! "STELLAR_CONTRACT_ID") = inr contract /\
    tx_operations tx = [invokeContract contract "register_asset" [payload]] /\
    tx_networkPassphrase tx
    = Some (default Networks_TESTNET (config w0 !! "STELLAR_NETWORK_PASSPHRASE")).
Proof.
  destruct (onModuleInit_cases w0 new_StellarService)
    as [(Hflag & ->) | [(Hflag & Hmissing & ->)
       | (key & cid & Hflag & Hkey & Hcid & Hrest)]]; cbn zeta in *;
    [cbn; discriminate | cbn; discriminate |].
  apply truthy_string_Some in Hkey as (Hk & Hne).
  destruct Hrest as [(e & _ & ->) | [(kp & e & _ & _ & ->) | (kp & srv & Hkp & Hsrv & ->)]];
    [cbn; discriminate | cbn; discriminate |].
  intros _ _. unfold final. cbn [fst snd].
  set (this := with_server srv (with_keypair kp (settings_read w0 new_StellarService))).
  intros Hin.
  destruct (registerAsset_cases asset w this)
    as [(kp' & srv' & payload & account & contract & Hkp' & Hsrv' & Hpayload & Hacc & Hcon)
       | (e & t & Hrun & Hnosim & _)].
  2:{ rewrite Hrun in Hin. exfalso.
      exact (count_zero_not_In is_simulation (ev_simulateTransaction tx) t Hnosim eq_refl Hin). }
  destruct (registerAsset_trace asset w this kp' srv' payload account contract
              Hkp' Hsrv' Hpayload Hacc Hcon) as (rest & Htrace & Hnosim & _ & _).
  cbn zeta in Htrace. rewrite Htrace in Hin |- *.
  cbn in Hkp'. injection Hkp' as <-.
  cbn in Hin. destruct Hin as [Hin|[Hin|Hin]]; try discriminate.
  2:{ exfalso.
      exact (count_zero_not_In is_simulation (ev_simulateTransaction tx) rest Hnosim eq_refl Hin). }
  injection Hin as <-.
  exists key, kp, contract, payload.
  repeat split; try assumption.
Qed.

End StartProperties.

(** ** The record and the identifier *)

Section Record.

Context `{sdk : StellarSdk}.

(** A record that was built was built by a service with a key pair, from
    a finite price. *)
Lemma assetScVal_returned (asset : Asset.t) (now : Z) (w : World) (this this' : Service)
    (payload : ScVal) (t : list event) :
  assetScVal asset now w this = (inr payload, this', t) ->
  exists kp cents, keypair this = Some kp /\ purchasePrice_cents asset = Js.Int cents.
Proof.
  destruct (keypair this) as [kp|] eqn:Hkp.
  2:{ destruct this as [en k s cid np]; cbn in Hkp; subst k. discriminate. }
  pose proof (assetScVal_with_keypair asset now w this kp Hkp) as H.
  destruct (purchasePrice_cents asset) as [cents| |negative] eqn:Hcents.
  - eauto.
  - cbn in H. rewrite H. discriminate.
  - destruct negative; cbn in H; rewrite H; discriminate.
Qed.

(** Every record that is built is well formed for the contract: eleven
    entries, each under a symbol, the symbols in strictly ascending byte
    order (so that none occurs twice); the [id] entry is the 32-byte
    digest of the asset's identifier and the [status] entry a vector of
    the one tag "Active" or "Retired". *)
Theorem assetScVal_well_formed (asset : Asset.t) (now : Z) (w : World)
    (this this' : Service) (entries : list (ScVal * ScVal)) (t : list event) :
  assetScVal asset now w this = (inr (scvMap entries), this', t) ->
  length entries = 11%nat /\
  Forall (fun entry => fst entry = scvSymbol (key_name entry)) entries /\
  ascending (map key_name entries) = true /\
  NoDup (map key_name entries) /\
  (exists digest, field "id" entries = Some (scvBytes digest) /\
                  length digest = 32%nat /\
                  to_hex digest = hex (deriveAssetId (Asset.id asset))) /\
  (field "status" entries = Some (scvVec [scvSymbol "Active"]) \/
   field "status" entries = Some (scvVec [scvSymbol "Retired"])).
Proof.
  intros Hrun.
  destruct (assetScVal_returned _ _ _ _ _ _ _ Hrun) as (kp & cents & Hkp & Hcents).
  destruct (assetScVal_built asset now w this kp cents Hkp Hcents)
    as (entries' & Hrun' & Hkeys & _ & _ & _ & Hid & _ & _ & _ & _ & _ & _ & Hstatus).
  assert (entries' = entries) as -> by congruence.
  assert (Hlength : length entries = 11%nat).
  { rewrite <- (length_map fst), Hkeys. reflexivity. }
  assert (Hsymbols : Forall (fun entry => fst entry = scvSymbol (key_name entry)) entries).
  { clear -Hkeys. revert Hkeys. generalize
      ["category"; "custom_attributes"; "description"; "id"; "last_transfer_timestamp";
       "metadata_uri"; "name"; "owner"; "purchase_value"; "registration_timestamp"; "status"].
    induction entries as [|[k v] entries IH]; intros names Hkeys; [constructor|].
    destruct names as [|name names]; [discriminate|].
    cbn in Hkeys. injection Hkeys as -> Hrest.
    constructor; [reflexivity | exact (IH names Hrest)]. }
  assert (Hnames : map key_name entries
                   = ["category"; "custom_attributes"; "description"; "id";
                      "last_transfer_timestamp"; "metadata_uri"; "name"; "owner";
                      "purchase_value"; "registration_timestamp"; "status"]).
  { clear -Hkeys. revert Hkeys. generalize
      ["category"; "custom_attributes"; "description"; "id"; "last_transfer_timestamp";
       "metadata_uri"; "name"; "owner"; "purchase_value"; "registration_timestamp"; "status"].
    induction entries as [|[k v] entries IH]; intros names Hkeys;
      destruct names as [|name names]; try discriminate; [reflexivity|].
    cbn in Hkeys. injection Hkeys as -> Hrest.
    cbn. f_equal. exact (IH names Hrest). }
  split; [exact Hlength|]. split; [exact Hsymbols|].
  rewrite Hnames.
  split; [vm_compute; reflexivity|].
  split; [apply (bool_decide_unpack _); vm_compute; exact I|].
  split.
  - eexists. split; [exact Hid|].
    split; [apply Sha256Facts.digest_length | reflexivity].
  - rewrite Hstatus. destruct (Asset.status asset); cbn; auto.
Qed.

End Record.

(** ** The hexadecimal print of the identifier *)

Lemma hex_value_digit (d : Z) : 0 <= d < 16 -> hex_value (hex_digit d) = d.
Proof.
  intros Hd.
  assert (Hcases : d = 0 \/ d = 1 \/ d = 2 \/ d = 3 \/ d = 4 \/ d = 5 \/ d = 6 \/ d = 7 \/
                   d = 8 \/ d = 9 \/ d = 10 \/ d = 11 \/ d = 12 \/ d = 13 \/ d = 14 \/ d = 15)
    by lia.
  repeat (destruct Hcases as [-> | Hcases]; [reflexivity|]). subst d. reflexivity.
Qed.

Lemma hex_digit_is_hex (d : Z) : is_hex_digit (hex_digit d) = true.
Proof.
  unfold hex_digit.
  destruct (Z.to_nat d) as [|[|[|[|[|[|[|[|[|[|[|[|[|[|[|[|n]]]]]]]]]]]]]]]]; try reflexivity.
  destruct n; reflexivity.
Qed.

Lemma to_hex_injective (bytes1 bytes2 : list Z) :
  Forall is_byte bytes1 -> Forall is_byte bytes2 ->
  to_hex bytes1 = to_hex bytes2 -> bytes1 = bytes2.
Proof.
  intros H1. revert bytes2.
  induction H1 as [|b1 rest1 Hb1 _ IH]; intros bytes2 H2 Heq.
  - destruct bytes2; [reflexivity | discriminate].
  - destruct H2 as [|b2 rest2 Hb2 H2]; [discriminate|].
    cbn [to_hex] in Heq. injection Heq as Hhigh Hlow Hrest.
    unfold is_byte in Hb1, Hb2.
    apply (f_equal hex_value) in Hhigh, Hlow.
    rewrite !hex_value_digit in Hhigh, Hlow
      by (try apply Z.mod_pos_bound; try (split; [apply Z.div_pos | apply Z.div_lt_upper_bound]);
          lia).
    f_equal; [|exact (IH rest2 H2 Hrest)].
    rewrite (Z.div_mod b1 16), (Z.div_mod b2 16) by lia. congruence.
Qed.

Lemma to_hex_digits (bytes : list Z) :
  Forall (fun c => is_hex_digit c = true) (String.list_ascii_of_string (to_hex bytes)).
Proof.
  induction bytes as [|b rest IH]; [constructor|].
  cbn [to_hex String.list_ascii_of_string].
  repeat constructor; try apply hex_digit_is_hex. exact IH.
Qed.

(** The [hex] of an identifier is made of the digits [0-9a-f] only, and it
    stands for the [buffer] faithfully: two identifiers have the same
    [hex] exactly when they have the same [buffer]. *)
Theorem deriveAssetId_hex_faithful (uuid1 uuid2 : string) :
  Forall (fun c => is_hex_digit c = true)
    (String.list_ascii_of_string (hex (deriveAssetId uuid1))) /\
  (hex (deriveAssetId uuid1) = hex (deriveAssetId uuid2) <->
   buffer (deriveAssetId uuid1) = buffer (deriveAssetId uuid2)).
Proof.
  unfold deriveAssetId; cbn [hex buffer].
  split; [apply to_hex_digits|].
  split; [|intros ->; reflexivity].
  apply to_hex_injective; apply Sha256Facts.digest_bytes.
Qed.

(** ** Further runs of the small instance *)

Lemma pending_until_pending (n : nat) (status : string) (k : nat) :
  (k < n)%nat -> Demo.pending_until n status k = "NOT_FOUND".
Proof. intros Hk. unfold Demo.pending_until. destruct (Nat.ltb_spec k n); [reflexivity | lia]. Qed.

Lemma not_found_pending : ~ terminal "NOT_FOUND".
Proof. intros [H|H]; discriminate. Qed.

Lemma pollForConfirmation_rejection_witness :
  outcome (pollForConfirmation "abc123" Demo.flaky Demo.ready)
  = inl (Error "socket hang up") /\
  count is_status_query (trace (pollForConfirmation "abc123" Demo.flaky Demo.ready)) = 3%nat.
Proof.
  apply (pollForConfirmation_rejection (sdk := Demo.sdk) "abc123" Demo.flaky Demo.ready
           "https://soroban-testnet.stellar.org" 3 (Error "socket hang up") eq_refl).
  - lia.
  - intros k Hk. exists "NOT_FOUND". split; [|exact not_found_pending].
    cbn. destruct (Nat.leb_spec k 2); [reflexivity | lia].
  - reflexivity.
Defined.

Lemma registerAsset_returns_confirmed_witness :
  exists k, (1 <= k <= 20)%nat /\
    getTransaction (Demo.healthy Demo.full_config) "https://soroban-testnet.stellar.org"
      k "abc123" = inr "SUCCESS".
Proof.
  destruct (registerAsset_returns_confirmed (sdk := Demo.sdk) (Demo.asset (Some 19.99%float))
              (Demo.healthy Demo.full_config) Demo.ready "abc123")
    as (srv & tx & sendResult & k & Hsrv & _ & _ & _ & _ & Hk & Hget).
  - vm_compute. reflexivity.
  - injection Hsrv as <-. exists k. split; [exact Hk | exact Hget].
Defined.

Lemma registerAsset_confirmed_witness :
  let run := registerAsset (Demo.asset (Some 19.99%float))
               (Demo.healthy Demo.full_config) Demo.ready in
  outcome run = inr "abc123" /\
  count is_submission (trace run) = 1%nat /\
  count is_status_query (trace run) = 3%nat.
Proof.
  intros run.
  destruct (registerAsset_confirmed (sdk := Demo.sdk) (Demo.asset (Some 19.99%float))
              (Demo.healthy Demo.full_config) Demo.ready "SKEY"
              "https://soroban-testnet.stellar.org" 1999 "GSKEY" "CONTRACT" tt
              (Demo.sent "PENDING" None) 3)
    as (Hout & _ & _ & Hsub & Hqueries);
    try reflexivity.
  - discriminate.
  - lia.
  - intros k Hk. exists "NOT_FOUND". split; [|exact not_found_pending].
    cbn. rewrite pending_until_pending by lia. reflexivity.
  - split; [exact Hout|]. split; [exact Hsub | exact Hqueries].
Defined.

Lemma registerAsset_unconfirmed_witness :
  let run := registerAsset (Demo.asset (Some 19.99%float))
               (Demo.answering (Demo.pending_until 4 "FAILED")) Demo.ready in
  outcome run = inl (Error "Transaction failed on-chain: abc123") /\
  count is_status_query (trace run) = 4%nat.
Proof.
  intros run.
  destruct (registerAsset_unconfirmed (sdk := Demo.sdk) (Demo.asset (Some 19.99%float))
              (Demo.answering (Demo.pending_until 4 "FAILED")) Demo.ready "SKEY"
              "https://soroban-testnet.stellar.org" 1999 "GSKEY" "CONTRACT" tt
              (Demo.sent "PENDING" None))
    as (_ & Hfailed & _);
    try reflexivity.
  - discriminate.
  - apply (Hfailed 4%nat); [lia | | reflexivity].
    intros k Hk. exists "NOT_FOUND". split; [|exact not_found_pending].
    cbn. rewrite pending_until_pending by lia. reflexivity.
Defined.

Lemma registerAsset_propagates_witness :
  let run := registerAsset (Demo.asset (Some 19.99%float)) Demo.unfunded Demo.ready in
  outcome run = inl (Error "Account not found") /\ trace run = [ev_getAccount "GSKEY"].
Proof.
  intros run.
  destruct (registerAsset_propagates (sdk := Demo.sdk) (Demo.asset (Some 19.99%float))
              Demo.unfunded Demo.ready "SKEY" "https://soroban-testnet.stellar.org" 1999
              (Error "Account not found") eq_refl eq_refl eq_refl)
    as (Hrejected & _).
  apply Hrejected. reflexivity.
Defined.


Lemma registerAsset_simulates_built_witness :
  exists tx,
    In (ev_simulateTransaction tx)
       (trace (registerAsset (Demo.asset (Some 19.99%float)) Demo.refusing Demo.ready)) /\
    tx_fee tx = "100" /\ tx_timeout tx = 300 /\
    tx_networkPassphrase tx = Some "Test SDF Network ; September 2015".
Proof.
  assert (Hasked : exists tx,
            In (ev_simulateTransaction tx)
               (trace (registerAsset (Demo.asset (Some 19.99%float))
                         Demo.refusing Demo.ready)))
    by (vm_compute; eexists; right; left; reflexivity).
  destruct Hasked as (tx & Hin). exists tx. split; [exact Hin|].
  destruct (registerAsset_simulates_built (sdk := Demo.sdk) _ _ _ tx Hin)
    as (kp & srv & account & contract & payload & _ & _ & _ & _ & _ & Hfee & Hpass & Htime & _).
  split; [exact Hfee|]. split; [exact Htime | exact Hpass].
Defined.

Lemma enabled_means_ready_witness :
  exists kp srv,
    keypair (final (onModuleInit (Demo.healthy Demo.full_config) new_StellarService)) = Some kp /\
    server (final (onModuleInit (Demo.healthy Demo.full_config) new_StellarService)) = Some srv.
Proof.
  destruct (enabled_means_ready (sdk := Demo.sdk) (Demo.healthy Demo.full_config))
    as (key & kp & srv & cid & Hkey & Hkp & Hsrv & _ & Hfinal);
    [vm_compute; reflexivity | vm_compute; reflexivity |].
  exists kp, srv. rewrite Hfinal. split; reflexivity.
Defined.

Lemma failed_start_leaves_flag_set_witness :
  let start := onModuleInit (Demo.healthy Demo.bad_key_config) new_StellarService in
  outcome start = inl (Error "invalid encoded string") /\
  isEnabled (final start) = true /\
  trace (registerAsset (Demo.asset None) (Demo.healthy Demo.bad_key_config) (final start)) = [].
Proof.
  intros start.
  destruct (failed_start_leaves_flag_set (sdk := Demo.sdk) (Demo.healthy Demo.bad_key_config)
              "not-a-secret" "CONTRACT" (Error "invalid encoded string"))
    as (Hout & _ & Henabled & _ & Hregister);
    try (vm_compute; reflexivity); try discriminate.
  - left. reflexivity.
  - split; [exact Hout|]. split; [exact Henabled|].
    apply (Hregister (Demo.asset None) (Demo.healthy Demo.bad_key_config)).
Defined.

Lemma settings_reach_transaction_witness :
  exists tx,
    In (ev_simulateTransaction tx)
       (trace (registerAsset (Demo.asset (Some 19.99%float)) Demo.refusing
                 (final (onModuleInit (Demo.healthy Demo.full_config) new_StellarService)))) /\
    tx_networkPassphrase tx = Some "Test SDF Network ; September 2015".
Proof.
  assert (Hasked : exists tx,
            In (ev_simulateTransaction tx)
               (trace (registerAsset (Demo.asset (Some 19.99%float)) Demo.refusing
                         (final (onModuleInit (Demo.healthy Demo.full_config)
                                   new_StellarService)))))
    by (vm_compute; eexists; right; left; reflexivity).
  destruct Hasked as (tx & Hin). exists tx. split; [exact Hin|].
  destruct (settings_reach_transaction (sdk := Demo.sdk) (Demo.healthy Demo.full_config)
              (Demo.asset (Some 19.99%float)) Demo.refusing tx)
    as (key & kp & contract & payload & _ & _ & _ & _ & _ & Hpass);
    [vm_compute; reflexivity | vm_compute; reflexivity | exact Hin |].
  rewrite Hpass. vm_compute. reflexivity.
Defined.

Lemma assetScVal_well_formed_witness :
  exists entries,
    outcome (assetScVal (Demo.asset (Some 19.99%float)) 1700000000
               (Demo.healthy Demo.full_config) Demo.ready) = inr (scvMap entries) /\
    length entries = 11%nat /\ NoDup (map key_name entries).
Proof.
  assert (Hbuilt : exists entries,
            assetScVal (Demo.asset (Some 19.99%float)) 1700000000
              (Demo.healthy Demo.full_config) Demo.ready
            = (inr (scvMap entries), Demo.ready, []))
    by (vm_compute; eexists; reflexivity).
  destruct Hbuilt as (entries & Hrun). exists entries.
  destruct (assetScVal_well_formed (sdk := Demo.sdk) _ _ _ _ _ _ _ Hrun)
    as (Hlength & _ & _ & Hnodup & _).
  rewrite Hrun. split; [reflexivity|]. split; [exact Hlength | exact Hnodup].
Defined.

(** * The frontend *)

Module MiddlewareFacts.
Import Middleware.

Lemma protected_iff (path : string) :
  existsb (startsWith path) PROTECTED = true <->
  exists route, In route PROTECTED /\ String.prefix route path = true.
Proof. unfold startsWith. apply existsb_exists. Qed.

Lemma middleware_redirects_target (req : NextRequest) (url : URL) :
  middleware req = redirect url ->
  url_origin url = origin req /\ url_pathname url = "/login".
Proof.
  unfold middleware.
  destruct (_ && _); [|discriminate]. intros [= <-]. split; reflexivity.
Qed.

(** The middleware redirects exactly the requests for a path that begins
    with /assets, /departments or /users and that carry no (or an empty)
    auth-token cookie; the redirect goes nowhere but to /login on the
    origin of the request, and carries the path that was asked for. *)
Theorem middleware_redirects_iff (req : NextRequest) :
  ((exists url, middleware req = redirect url) <->
   (exists route, In route PROTECTED /\ String.prefix route (pathname req) = true) /\
   truthy_string (cookies req !! "auth-token") = None) /\
  (forall url, middleware req = redirect url ->
     url_origin url = origin req /\ url_pathname url = "/login" /\
     searchParams url = [("redirect", pathname req)]).
Proof.
  unfold middleware. rewrite <- protected_iff.
  destruct (existsb (startsWith (pathname req)) PROTECTED);
    destruct (truthy_string (cookies req !! "auth-token")) as [token|] eqn:Htoken.
  - rewrite bool_decide_eq_true_2 by eauto. cbn.
    split; [split|]; [intros (url & H) | intros (_ & H) | intros url H]; discriminate.
  - rewrite bool_decide_eq_false_2 by (intros (x & H); discriminate). cbn.
    split; [split; [auto | eauto]|]. intros url [= <-]. repeat split.
  - cbn. split; [split|]; [intros (url & H) | intros (H & _) | intros url H]; discriminate.
  - cbn. split; [split|]; [intros (url & H) | intros (H & _) | intros url H]; discriminate.
Qed.

(** A path that begins with none of the three protected routes is let
    through, with or without a token; so are the three auth pages and all
    of /dashboard, and so is the target of every redirect: following a
    redirect of the middleware never leads to another one. *)
Theorem middleware_never_loops (req : NextRequest) :
  (In (pathname req) AUTH_PAGES -> middleware req = next) /\
  (String.prefix "/dashboard" (pathname req) = true -> middleware req = next) /\
  (forall url, middleware req = redirect url -> middleware (follow req url) = next).
Proof.
  assert (Hopen : forall r, existsb (startsWith (pathname r)) PROTECTED = false ->
                            middleware r = next).
  { intros r H. unfold middleware. rewrite H. reflexivity. }
  split; [|split].
  - intros Hin. apply Hopen.
    cbn in Hin. destruct Hin as [<-|[<-|[<-|[]]]]; reflexivity.
  - intros Hprefix. apply Hopen.
    destruct (pathname req) as [|c0 [|c1 [|c2 rest]]];
      cbn -[Ascii.ascii_dec] in Hprefix; try discriminate.
    + destruct (Ascii.ascii_dec "/" c0); discriminate.
    + destruct (Ascii.ascii_dec "/" c0); [|discriminate].
      destruct (Ascii.ascii_dec "d" c1); discriminate.
    + destruct (Ascii.ascii_dec "/" c0) as [<-|]; [|discriminate].
      destruct (Ascii.ascii_dec "d" c1) as [<-|]; [|discriminate].
      destruct (Ascii.ascii_dec "a" c2) as [<-|]; [|discriminate].
      reflexivity.
  - intros url Hredirect.
    destruct (middleware_redirects_target req url Hredirect) as (_ & Hpath).
    apply Hopen. cbn [follow pathname]. rewrite Hpath. reflexivity.
Qed.

End MiddlewareFacts.

Module AssetsPageFacts.
Import AssetsPage.

(** With a page count that is not negative, a current page within
    [1, pages] stays there under Previous and Next; Next on the last page
    and Previous on the first change nothing, and elsewhere each undoes
    the other. *)
Theorem paging_stays_in_range (totalPages : option Z) (s : State) :
  (forall n, totalPages = Some n -> 0 <= n) ->
  1 <= currentPage s <= pages_or_one totalPages ->
  let pages := pages_or_one totalPages in
  1 <= currentPage (handlePreviousPage s) <= pages /\
  1 <= currentPage (handleNextPage totalPages s) <= pages /\
  (currentPage s = pages -> handleNextPage totalPages s = s) /\
  (currentPage s = 1 -> handlePreviousPage s = s) /\
  (currentPage s < pages -> handlePreviousPage (handleNextPage totalPages s) = s) /\
  (1 < currentPage s -> handleNextPage totalPages (handlePreviousPage s) = s).
Proof.
  intros Htotal Hrange pages. subst pages.
  assert (Hpages : 1 <= pages_or_one totalPages).
  { destruct totalPages as [n|]; [|cbn; lia].
    specialize (Htotal n eq_refl). destruct n; cbn; lia. }
  destruct s as [page field order]. unfold handlePreviousPage, handleNextPage.
  cbn [currentPage sortField sortOrder] in *.
  repeat split; try lia; intros H; f_equal; lia.
Qed.

Lemma paging_stays_in_range_witness :
  let s := {| currentPage := 3; sortField := assetId; sortOrder := asc |} in
  handleNextPage (Some 3) s = s /\
  currentPage (handlePreviousPage s) = 2 /\
  handleNextPage None (handlePreviousPage (handlePreviousPage s))
  = handlePreviousPage (handlePreviousPage s).
Proof.
  intros s.
  destruct (paging_stays_in_range (Some 3) s) as (_ & _ & Hlast & _);
    [intros n [= <-]; lia | cbn; lia |].
  split; [apply Hlast; reflexivity|]. split; [reflexivity|].
  destruct (paging_stays_in_range None (handlePreviousPage (handlePreviousPage s)))
    as (_ & _ & Hlast' & _); [discriminate | cbn; lia |].
  apply Hlast'. reflexivity.
Defined.

(** A click on a column header always leaves that column as the sort
    field and never moves the page; on another column than the current one
    it sorts ascending, on the current one it reverses the order, so that
    two clicks on the current column restore the state. *)
Theorem handleSort_toggles (field : SortField) (s : State) :
  sortField (handleSort field s) = field /\
  currentPage (handleSort field s) = currentPage s /\
  (sortField s <> field -> sortOrder (handleSort field s) = asc) /\
  (sortField s = field ->
   sortOrder (handleSort field s) <> sortOrder s /\
   handleSort field (handleSort field s) = s) /\
  handleSort field (handleSort field (handleSort field s)) = handleSort field s.
Proof.
  destruct s as [page current order]. unfold handleSort.
  cbn [currentPage sortField sortOrder].
  destruct (decide (current = field)) as [->|Hne].
  - repeat first [ rewrite bool_decide_eq_true_2 by reflexivity
                 | progress cbn [sortField sortOrder currentPage] ].
    destruct order; repeat split; try discriminate; try contradiction.
  - repeat first [ rewrite bool_decide_eq_false_2 by exact Hne
                 | rewrite bool_decide_eq_true_2 by reflexivity
                 | progress cbn [sortField sortOrder currentPage] ].
    repeat split; try contradiction.
Qed.

End AssetsPageFacts.

(** A request for an asset without a cookie is sent to the login page,
    which is served. *)
Example middleware_run :
  let req := {| Middleware.cookies := ∅; Middleware.origin := "https://app.example";
                Middleware.pathname := "/assets/42" |} in
  Middleware.middleware req
  = Middleware.redirect
      {| Middleware.url_origin := "https://app.example";
         Middleware.url_pathname := "/login";
         Middleware.searchParams := [("redirect", "/assets/42")] |} /\
  Middleware.middleware
    {| Middleware.cookies := {[ "auth-token" := "jwt" ]};
       Middleware.origin := "https://app.example";
       Middleware.pathname := "/assets/42" |} = Middleware.next.
Proof. vm_compute. split; reflexivity. Qed.
